(** * Resume-Maker: the Flask application [app.py], embedded and verified

  The development follows [app.py] section by section: the Python
  string primitives the code relies on, the JSON documents it stores,
  the helpers ([escape_html], [allowed_file], [find_user_by_email] ...),
  the auth views, [generate] and the template views.

  Text is modelled on 7-bit characters: a Python [str] is a Rocq
  [string], and case mapping and white space are the ASCII ones. *)

From Stdlib Require Import ZArith List Ascii String Bool Lia.
From stdpp Require Import base option list strings gmap.

Open Scope string_scope.

(** ** Python string primitives *)

Module Py.

(** [str.lower] on one character. *)
Definition lower_char (c : ascii) : ascii :=
  let n := nat_of_ascii c in
  if (65 <=? n)%nat && (n <=? 90)%nat then ascii_of_nat (n + 32) else c.

(** [str.upper] on one character. *)
Definition upper_char (c : ascii) : ascii :=
  let n := nat_of_ascii c in
  if (97 <=? n)%nat && (n <=? 122)%nat then ascii_of_nat (n - 32) else c.

(** [str.isspace] on one character: tab, line feed, vertical tab, form
    feed, carriage return, the four separators 28..31 and the blank. *)
Definition is_space (c : ascii) : bool :=
  let n := nat_of_ascii c in
  ((9 <=? n)%nat && (n <=? 13)%nat) || ((28 <=? n)%nat && (n <=? 32)%nat).

Fixpoint lower (s : string) : string :=
  match s with
  | EmptyString => EmptyString
  | String c s' => String (lower_char c) (lower s')
  end.

Fixpoint upper (s : string) : string :=
  match s with
  | EmptyString => EmptyString
  | String c s' => String (upper_char c) (upper s')
  end.

(** [str.lstrip()] *)
Fixpoint lstrip (s : string) : string :=
  match s with
  | EmptyString => EmptyString
  | String c s' => if is_space c then lstrip s' else s
  end.

(** [str.rstrip()]: a character goes when everything from it to the end
    is white space. *)
Fixpoint rstrip (s : string) : string :=
  match s with
  | EmptyString => EmptyString
  | String c s' =>
      match rstrip s' with
      | EmptyString => if is_space c then EmptyString else String c EmptyString
      | r => String c r
      end
  end.

(** [str.strip()] *)
Definition strip (s : string) : string := rstrip (lstrip s).

(** Truth value of a [str]: [bool(s)]. *)
Definition truthy (s : string) : bool :=
  match s with EmptyString => false | _ => true end.

(** [s.startswith(p)] *)
Fixpoint startswith (p s : string) : bool :=
  match p, s with
  | EmptyString, _ => true
  | String a p', String b s' => Ascii.eqb a b && startswith p' s'
  | String _ _, EmptyString => false
  end.

(** [s[n:]] *)
Fixpoint drop (n : nat) (s : string) : string :=
  match n, s with
  | O, _ => s
  | S n', String _ s' => drop n' s'
  | S _, EmptyString => EmptyString
  end.

(** [s.replace(old, new)] for a non-empty [old]: occurrences are taken
    left to right and do not overlap.  [skip] counts the characters of
    an occurrence just replaced that are still to be passed over. *)
Fixpoint replace_from (old new : string) (skip : nat) (s : string) : string :=
  match s with
  | EmptyString => EmptyString
  | String c s' =>
      match skip with
      | S k => replace_from old new k s'
      | O =>
          if startswith old s
          then new +:+ replace_from old new (String.length old - 1) s'
          else String c (replace_from old new 0 s')
      end
  end.

(** [s.replace("", new)] puts [new] before every character and at the end. *)
Fixpoint intersperse (new s : string) : string :=
  match s with
  | EmptyString => new
  | String c s' => new +:+ String c (intersperse new s')
  end.

Definition replace (old new s : string) : string :=
  match old with
  | EmptyString => intersperse new s
  | _ => replace_from old new 0 s
  end.

(** [s.split(sep)] for a non-empty [sep]; [cur] holds the piece being
  read. *)
Fixpoint split_from (sep : string) (skip : nat) (cur : string) (s : string)
  : list string :=
  match s with
  | EmptyString => [cur]
  | String c s' =>
      match skip with
      | S k => split_from sep k cur s'
      | O =>
          if startswith sep s
          then cur :: split_from sep (String.length sep - 1) EmptyString s'
          else split_from sep 0 (cur +:+ String c EmptyString) s'
      end
  end.

Definition split (sep s : string) : list string := split_from sep 0 EmptyString s.

(** [s.split()]: the maximal runs of non-space characters. *)
Fixpoint words_from (cur : string) (s : string) : list string :=
  match s with
  | EmptyString =>
      match cur with EmptyString => [] | _ => [cur] end
  | String c s' =>
      if is_space c
      then match cur with
           | EmptyString => words_from EmptyString s'
           | _ => cur :: words_from EmptyString s'
           end
      else words_from (cur +:+ String c EmptyString) s'
  end.

Definition words (s : string) : list string := words_from EmptyString s.

(** Every character [c] of [s] replaced by [f c]. *)
Fixpoint expand (f : ascii -> string) (s : string) : string :=
  match s with
  | EmptyString => EmptyString
  | String c s' => f c +:+ expand f s'
  end.

(** [c in s] for a character [c] *)
Fixpoint has_char (c : ascii) (s : string) : bool :=
  match s with
  | EmptyString => false
  | String a s' => Ascii.eqb a c || has_char c s'
  end.

(** [sep.join(l)] *)
Fixpoint join (sep : string) (l : list string) : string :=
  match l with
  | [] => EmptyString
  | [x] => x
  | x :: l' => x +:+ sep +:+ join sep l'
  end.

(** [s.rfind(c)] for a one-character [c]; [None] stands for -1. *)
Fixpoint rfind_char (c : ascii) (s : string) : option nat :=
  match s with
  | EmptyString => None
  | String a s' =>
      match rfind_char c s' with
      | Some i => Some (S i)
      | None => if Ascii.eqb a c then Some 0%nat else None
      end
  end.

(** [pathlib.PurePath(p).name]: the last component of [p], components
    being separated by [/] and the empty and [.] ones ignored. *)
Definition path_name (p : string) : string :=
  List.last
    (List.filter (fun x => negb (String.eqb x "") && negb (String.eqb x "."))
                 (split "/" p))
    "".

(** [pathlib.PurePath(p).suffix], as CPython up to 3.13 computes it:
  from the last dot of the name on, unless that dot opens or ends the
  name. *)
Definition suffix (p : string) : string :=
  let name := path_name p in
  match rfind_char "." name with
  | Some i =>
      if (0 <? i)%nat && (i <? String.length name - 1)%nat then drop i name else ""
  | None => ""
  end.

End Py.


(** ** JSON documents and Python dictionaries *)

(** The values [json.dump] writes and [json.load] reads back.  [JNull] is
    Python's [None]. *)
Local Unset Elimination Schemes.
Inductive json : Type :=
| JNull
| JBool (b : bool)
| JStr (s : string)
| JList (l : list json)
| JObj (kvs : list (string * json)).
Local Set Elimination Schemes.

(** A [dict] with [str] keys, in insertion order. *)
Definition dict (V : Type) : Type := list (string * V).

(** [d.get(k)] *)
Fixpoint dict_get {V} (k : string) (d : dict V) : option V :=
  match d with
  | [] => None
  | (k', v) :: d' => if String.eqb k' k then Some v else dict_get k d'
  end.

(** [d.get(k, dflt)] *)
Definition dict_get_or {V} (k : string) (dflt : V) (d : dict V) : V :=
  match dict_get k d with
  | Some v => v
  | None => dflt
  end.

(** [d[k] = v]: an existing key keeps its place, a new one goes last. *)
Fixpoint dict_set {V} (k : string) (v : V) (d : dict V) : dict V :=
  match d with
  | [] => [(k, v)]
  | (k', v') :: d' =>
      if String.eqb k' k then (k, v) :: d' else (k', v') :: dict_set k v d'
  end.

(** [d.update(e)] *)
Definition dict_update {V} (e d : dict V) : dict V :=
  fold_left (fun acc kv => dict_set (fst kv) (snd kv) acc) e d.

(** Truth value of a JSON value: [bool(v)]. *)
Definition json_truthy (v : json) : bool :=
  match v with
  | JNull => false
  | JBool b => b
  | JStr s => Py.truthy s
  | JList l => match l with [] => false | _ => true end
  | JObj kvs => match kvs with [] => false | _ => true end
  end.

(** ** The request: form fields and the uploaded file *)

(** [request.form], a multi-dict: the fields in the order they were sent,
    a key possibly several times. *)
Definition MultiDict : Type := list (string * string).

(** [form.get(k)] : the first value of [k], [None] without one. *)
Fixpoint form_get_opt (k : string) (form : MultiDict) : option string :=
  match form with
  | [] => None
  | (k', v) :: form' => if String.eqb k' k then Some v else form_get_opt k form'
  end.

(** [form.get(k, dflt)] *)
Definition form_get (k dflt : string) (form : MultiDict) : string :=
  match form_get_opt k form with
  | Some v => v
  | None => dflt
  end.

(** [form.getlist(k)] : every value of [k], in order. *)
Fixpoint form_getlist (k : string) (form : MultiDict) : list string :=
  match form with
  | [] => []
  | (k', v) :: form' =>
      if String.eqb k' k then v :: form_getlist k form' else form_getlist k form'
  end.

(** A [FileStorage]: the client's file name, the declared content type
    (empty when the part had none) and the length of the byte stream,
    which is what both branches of the size measurement of [generate]
    (seek to the end, or read everything) compute. *)
Record FileStorage : Type := {
  fs_filename : string;
  fs_mimetype : string;
  fs_size : Z
}.

(** ** The state the views act on *)

(** [session["user"]] *)
Record SessionUser : Type := {
  su_id : string;
  su_name : string;
  su_email : string
}.

Record Session : Type := {
  sess_user : option SessionUser;
  sess_last_resume_file : option string;
  sess_flashes : list (string * string)
}.

(** The files under [BASE_DIR] and the session of the caller. *)
Record World : Type := {
  users_file : list (dict json);
  resume_files : gmap string json;
  upload_files : gmap string FileStorage;
  session : Session
}.

(** What one request draws from outside: the [uuid4] values, the clock,
    and whether the two file writes of [generate] succeed. *)
Record Env : Type := {
  uuid_user : string;
  uuid_photo : string;
  uuid_resume : string;
  utcnow : string;
  photo_save_ok : bool;
  resume_write_ok : bool
}.

(** A value bound in a template context: data, or one of the callables. *)
Inductive binding : Type :=
| BVal (v : json)
| BFun (f : string -> string).

Inductive response : Type :=
| Redirect (endpoint : string)
| Render (template : string) (context : dict binding)
| Abort (code : Z) (description : string)
| ServerError.

Definition set_session (s : Session) (w : World) : World :=
  {| users_file := users_file w; resume_files := resume_files w;
     upload_files := upload_files w; session := s |}.

(** [flash(message, category)] *)
Definition flash (message category : string) (w : World) : World :=
  set_session
    {| sess_user := sess_user (session w);
       sess_last_resume_file := sess_last_resume_file (session w);
       sess_flashes := (sess_flashes (session w) ++ [(message, category)])%list |} w.

(** [session["user"] = u] *)
Definition set_user (u : SessionUser) (w : World) : World :=
  set_session
    {| sess_user := Some u;
       sess_last_resume_file := sess_last_resume_file (session w);
       sess_flashes := sess_flashes (session w) |} w.

(** [session["last_resume_file"] = p] *)
Definition set_last_resume_file (p : string) (w : World) : World :=
  set_session
    {| sess_user := sess_user (session w);
       sess_last_resume_file := Some p;
       sess_flashes := sess_flashes (session w) |} w.

Definition write_resume (p : string) (doc : json) (w : World) : World :=
  {| users_file := users_file w; resume_files := <[p := doc]> (resume_files w);
     upload_files := upload_files w; session := session w |}.

Definition write_upload (p : string) (f : FileStorage) (w : World) : World :=
  {| users_file := users_file w; resume_files := resume_files w;
     upload_files := <[p := f]> (upload_files w); session := session w |}.

(** [save_users(users)] *)
Definition save_users (users : list (dict json)) (w : World) : World :=
  {| users_file := users; resume_files := resume_files w;
     upload_files := upload_files w; session := session w |}.

(** ** Configuration *)

Definition MAX_CONTENT_LENGTH : Z := 2 * 1024 * 1024.
Definition ALLOWED_EXT : list string := [".png"; ".jpg"; ".jpeg"].
Definition ALLOWED_MIMETYPES : list string := ["image/png"; "image/jpeg"].

(** [x in l] for strings *)
Definition str_in (x : string) (l : list string) : bool := existsb (String.eqb x) l.

(** ** Helpers *)

(** The double-quote character. *)
Definition dquote : ascii := ascii_of_nat 34.

Definition escape_html (text : string) : string :=
  if negb (Py.truthy text) then ""
  else Py.replace "'" "&#39;"
         (Py.replace (String dquote "") "&quot;"
            (Py.replace ">" "&gt;"
               (Py.replace "<" "&lt;"
                  (Py.replace "&" "&amp;" text)))).

Definition render_inline (text : string) : string :=
  Py.replace (String (ascii_of_nat 10) "") "<br>" (escape_html text).

Definition render_html (text : string) : string :=
  if negb (Py.truthy text) then ""
  else
    let escaped := escape_html text in
    Py.replace (String (ascii_of_nat 10) "") "<br>"
      (Py.replace "&lt;br&gt;" "<br>" escaped).

(** [w[0].upper()] for a word of [name.split()] *)
Definition initial_of (w : string) : string :=
  match w with
  | EmptyString => EmptyString
  | String c _ => String (Py.upper_char c) EmptyString
  end.

(** [initials] on a [str] *)
Definition initials_str (name : string) : string :=
  let name := if Py.truthy name then name else " " in
  String.concat "" (map initial_of (take 2 (Py.words name))).

(** [initials(name)] on what the stored document holds under ["name"]:
    a false value is replaced by [" "], and a true one that is not a
    [str] has no [split] ([None] here, an exception there). *)
Definition initials (name : json) : option string :=
  match name with
  | JStr s => Some (initials_str s)
  | v => if json_truthy v then None else Some (initials_str " ")
  end.

(** [allowed_file(filename, mimetype)]; [mimetype] is [None] when the
    argument is left out. *)
Definition allowed_file (filename : string) (mimetype : option string) : bool :=
  let ext := Py.lower (Py.suffix filename) in
  if negb (str_in ext ALLOWED_EXT) then false
  else
    match mimetype with
    | Some m => if Py.truthy m && negb (str_in m ALLOWED_MIMETYPES) then false else true
    | None => true
    end.

(** [u.get("email") == email] *)
Definition email_is (email : string) (u : dict json) : bool :=
  match dict_get "email" u with
  | Some (JStr e) => String.eqb e email
  | _ => false
  end.

(** [find_user_by_email(email)] over what [load_users()] returns. *)
Fixpoint find_user_by_email (email : string) (users : list (dict json))
  : option (dict json) :=
  match users with
  | [] => None
  | u :: users' => if email_is email u then Some u else find_user_by_email email users'
  end.

(** [add_user(name, email, password_hash)]; returns the new id. *)
Definition add_user (env : Env) (name email password_hash : string) (w : World)
  : string * World :=
  let users := users_file w in
  let user_id := uuid_user env in
  let users := (users ++ [[("id", JStr user_id);
                           ("name", JStr name);
                           ("email", JStr email);
                           ("password", JStr password_hash);
                           ("created_at", JStr (utcnow env +:+ "Z"))]])%list in
  (user_id, save_users users w).

(** ** What the application takes from its host and from Werkzeug *)

Class Host : Type := {
  BASE_DIR : string;
  secure_filename : string -> string;
  generate_password_hash : string -> string;
  check_password_hash : string -> string -> bool
}.

Section Views.

Context `{H : Host}.

Definition UPLOAD_FOLDER : string := BASE_DIR +:+ "/static/uploads".
Definition DATA_DIR : string := BASE_DIR +:+ "/data".
Definition RESUMES_DIR : string := DATA_DIR +:+ "/resumes".

(** [login_required]: the view runs only with a user in the session. *)
Definition login_required (view : SessionUser -> World -> response * World)
  (w : World) : response * World :=
  match sess_user (session w) with
  | None => (Redirect "login", flash "Please log in to continue." "warning" w)
  | Some u => view u w
  end.

(** *** Auth *)

(** Truth value of [form.get(k)] *)
Definition opt_truthy (o : option string) : bool :=
  match o with
  | Some s => Py.truthy s
  | None => false
  end.

(** [signup], on a POST. *)
Definition signup (env : Env) (form : MultiDict) (w : World) : response * World :=
  let name := Py.strip (form_get "name" "" form) in
  let email := Py.lower (Py.strip (form_get "email" "" form)) in
  let pwd := form_get_opt "password" form in
  let confirm := form_get_opt "confirm_password" form in
  if negb (Py.truthy name && Py.truthy email && opt_truthy pwd && opt_truthy confirm)
  then (Render "signup.html" [], flash "All fields are required." "error" w)
  else if negb (bool_decide (pwd = confirm))
  then (Render "signup.html" [], flash "Passwords do not match." "error" w)
  else
    match find_user_by_email email (users_file w) with
    | Some _ => (Render "signup.html" [], flash "E-mail already registered." "error" w)
    | None =>
        let pwd_hash := generate_password_hash (default "" pwd) in
        let '(user_id, w) := add_user env name email pwd_hash w in
        let w := set_user {| su_id := user_id; su_name := name; su_email := email |} w in
        (Redirect "dashboard", flash "Account created and logged in." "success" w)
    end.

(** [user[k]] for the three fields [login] copies into the session. *)
Definition user_field (k : string) (u : dict json) : option string :=
  match dict_get k u with
  | Some (JStr s) => Some s
  | _ => None
  end.

(** [login], on a POST.  Without a [password] field Werkzeug is handed
    [None] and raises. *)
Definition login (form : MultiDict) (w : World) : response * World :=
  let email := Py.lower (Py.strip (form_get "email" "" form)) in
  let pwd := form_get_opt "password" form in
  let user := find_user_by_email email (users_file w) in
  let invalid := (Render "login.html" [], flash "Invalid credentials." "error" w) in
  match user with
  | None => invalid
  | Some u =>
      match pwd with
      | None => (ServerError, w)
      | Some p =>
          if check_password_hash (default "" (user_field "password" u)) p
          then
            match user_field "id" u, user_field "name" u, user_field "email" u with
            | Some i, Some n, Some e =>
                let w := set_user {| su_id := i; su_name := n; su_email := e |} w in
                (Redirect "dashboard", flash "Logged in successfully." "success" w)
            | _, _, _ => (ServerError, w)
            end
          else invalid
      end
  end.

(** *** The resume builder *)

(** [[s.strip() for s in text.split(",") if s.strip()]] *)
Definition parse_skills (text : string) : list string :=
  map Py.strip (List.filter (fun s => Py.truthy (Py.strip s)) (Py.split "," text)).

(** [[L.strip() for L in values if L.strip()]] *)
Definition clean_list (values : list string) : list string :=
  map Py.strip (List.filter (fun L => Py.truthy (Py.strip L)) values).

(** The dictionary literal that opens [generate]. *)
Definition basic_fields (env : Env) (form : MultiDict) : dict json :=
  [("name", JStr (Py.strip (form_get "name" "" form)));
   ("title", JStr (Py.strip (form_get "title" "" form)));
   ("email", JStr (Py.strip (form_get "email" "" form)));
   ("phone", JStr (Py.strip (form_get "phone" "" form)));
   ("address", JStr (Py.strip (form_get "address" "" form)));
   ("summary", JStr (Py.strip (form_get "summary" "" form)));
   ("skills", JList (map JStr (parse_skills (form_get "skills" "" form))));
   ("languages", JList (map JStr (clean_list (form_getlist "languages[]" form))));
   ("experience", JList []);
   ("education", JList []);
   ("created_at", JStr (utcnow env +:+ "Z"))].

(** [l[i] if i < len(l) else ""] *)
Definition item_or_empty (l : list string) (i : nat) : string :=
  if (i <? length l)%nat then nth i l "" else "".

(** [data[k].append(block)] *)
Definition append_block (k : string) (block : json) (data : dict json) : dict json :=
  match dict_get k data with
  | Some (JList l) => dict_set k (JList (l ++ [block])%list) data
  | _ => data
  end.

Definition experience_block (titles companies durations descs : list string)
  (i : nat) : json :=
  JObj [("title", JStr (nth i titles ""));
        ("company", JStr (item_or_empty companies i));
        ("duration", JStr (item_or_empty durations i));
        ("description", JStr (item_or_empty descs i))].

Definition education_block (degrees unis years : list string) (i : nat) : json :=
  JObj [("degree", JStr (nth i degrees ""));
        ("university", JStr (item_or_empty unis i));
        ("year", JStr (item_or_empty years i))].

(** The records the two loops append, as lists. *)
Definition experience_records (titles companies durations descs : list string)
  : list json :=
  map (experience_block titles companies durations descs) (seq 0 (length titles)).

Definition education_records (degrees unis years : list string) : list json :=
  map (education_block degrees unis years) (seq 0 (length degrees)).

(** The loop [for i in range(len(exp_titles))]. *)
Definition experience_blocks (form : MultiDict) (data : dict json) : dict json :=
  let exp_titles := form_getlist "experience_title[]" form in
  let exp_companies := form_getlist "experience_company[]" form in
  let exp_durations := form_getlist "experience_duration[]" form in
  let exp_descs := form_getlist "experience_description[]" form in
  fold_left
    (fun data i =>
       append_block "experience"
         (experience_block exp_titles exp_companies exp_durations exp_descs i) data)
    (seq 0 (length exp_titles)) data.

(** The loop [for i in range(len(edu_degrees))]. *)
Definition education_blocks (form : MultiDict) (data : dict json) : dict json :=
  let edu_degrees := form_getlist "education_degree[]" form in
  let edu_unis := form_getlist "education_university[]" form in
  let edu_years := form_getlist "education_year[]" form in
  fold_left
    (fun data i =>
       append_block "education" (education_block edu_degrees edu_unis edu_years i) data)
    (seq 0 (length edu_degrees)) data.

(** [data] as it stands when the photo is looked at. *)
Definition assemble_fields (env : Env) (form : MultiDict) : dict json :=
  education_blocks form (experience_blocks form (basic_fields env form)).

(** The two checks [generate] makes on a named upload, in its order: the
    message flashed on a rejection, [None] when the upload goes on. *)
Definition photo_rejection (filename_raw mimetype : string) (file_size : Z)
  : option string :=
  if negb (allowed_file filename_raw (Some mimetype))
  then Some "Invalid file type. Only PNG and JPEG allowed."
  else if (file_size >? MAX_CONTENT_LENGTH)%Z
  then Some "File too large. Maximum allowed is 2MB."
  else None.

(** The block [# Optional photo with validation]: an early return on the
    left, the data and the files to go on with on the right. *)
Definition generate_photo (env : Env) (photo : option FileStorage)
  (data : dict json) (w : World) : (response * World) + (dict json * World) :=
  match photo with
  | Some photo_file =>
      if Py.truthy (fs_filename photo_file) then
        let filename_raw := secure_filename (fs_filename photo_file) in
        let mimetype := fs_mimetype photo_file in
        let file_size := fs_size photo_file in
        match photo_rejection filename_raw mimetype file_size with
        | Some message => inl (Redirect "dashboard", flash message "error" w)
        | None =>
            let ext := Py.lower (Py.suffix filename_raw) in
            let filename := uuid_photo env +:+ ext in
            let filepath := UPLOAD_FOLDER +:+ "/" +:+ filename in
            if photo_save_ok env then
              let data := dict_set "photo" (JStr ("/static/uploads/" +:+ filename)) data in
              let data := dict_set "photo_exists" (JBool true) data in
              inr (data, write_upload filepath photo_file w)
            else
              let w := flash "Error saving photo. Please try again." "error" w in
              inr (dict_set "photo_exists" (JBool false) data, w)
        end
      else inr (dict_set "photo_exists" (JBool false) data, w)
  | None => inr (dict_set "photo_exists" (JBool false) data, w)
  end.

(** [f"template{i}"] for a one-digit [i] *)
Definition template_name (i : nat) : string :=
  "template" +:+ String (ascii_of_nat (48 + i)) "".

(** [[f"template{i}" for i in range(1, 9)]] *)
Definition TEMPLATE_NAMES : list string := map template_name (seq 1 8).

Definition resume_path (user_id resume_id : string) : string :=
  RESUMES_DIR +:+ "/" +:+ user_id +:+ "_" +:+ resume_id +:+ ".json".

(** From [# Store resume persistently per user] to the end of the [try]
    block; a failed write leaves through the [except] clause. *)
Definition generate_store (env : Env) (form : MultiDict) (user : SessionUser)
  (data : dict json) (w : World) : response * World :=
  let user_id := su_id user in
  let resume_id := uuid_resume env in
  if resume_write_ok env then
    let w := write_resume (resume_path user_id resume_id)
               (JObj [("id", JStr resume_id); ("user_id", JStr user_id);
                      ("data", JObj data)]) w in
    let w := set_last_resume_file (resume_path user_id resume_id) w in
    let tmpl := form_get "template" "template1" form in
    if negb (str_in tmpl TEMPLATE_NAMES)
    then (Redirect "dashboard", flash "Invalid template selected." "error" w)
    else (Redirect tmpl, w)
  else
    (Redirect "dashboard", flash "Error generating resume. Please try again." "error" w).

(** [generate] *)
Definition generate (env : Env) (form : MultiDict) (photo : option FileStorage)
  : World -> response * World :=
  login_required (fun user w =>
    match generate_photo env photo (assemble_fields env form) w with
    | inl early => early
    | inr (data, w) => generate_store env form user data w
    end).

(** *** Template routes *)

Definition normalized_data (d : dict json) : dict json :=
  [("name", dict_get_or "name" (JStr "") d);
   ("title", dict_get_or "title" (JStr "") d);
   ("email", dict_get_or "email" (JStr "") d);
   ("phone", dict_get_or "phone" (JStr "") d);
   ("address", dict_get_or "address" (JStr "") d);
   ("summary", dict_get_or "summary" (JStr "") d);
   ("skills", dict_get_or "skills" (JList []) d);
   ("languages", dict_get_or "languages" (JList []) d);
   ("experience", dict_get_or "experience" (JList []) d);
   ("education", dict_get_or "education" (JList []) d);
   ("photo", dict_get_or "photo" JNull d);
   ("photo_exists", dict_get_or "photo_exists" (JBool false) d)].

(** The templates that get the individual variables. *)
Definition FLAT_TEMPLATES : list string :=
  ["template1"; "template5"; "template6"; "template7"; "template8"].

(** [nd[k]], for a key [normalized_data] always sets *)
Definition nd_item (k : string) (nd : dict json) : binding :=
  BVal (dict_get_or k JNull nd).

(** [context], given the normalized data and the computed initials. *)
Definition build_context (template : string) (nd : dict json) (ini : string)
  : dict binding :=
  let context :=
    [("data", BVal (JObj nd));
     ("photo", BVal (dict_get_or "photo" JNull nd));
     ("photo_exists", BVal (dict_get_or "photo_exists" (JBool false) nd));
     ("initials", BVal (JStr ini));
     ("e", BFun escape_html);
     ("render_inline", BFun render_inline);
     ("render_html", BFun render_html)] in
  if str_in template FLAT_TEMPLATES then
    dict_update
      [("name", nd_item "name" nd);
       ("title", nd_item "title" nd);
       ("email", nd_item "email" nd);
       ("phone", nd_item "phone" nd);
       ("address", nd_item "address" nd);
       ("summary", nd_item "summary" nd);
       ("skills", nd_item "skills" nd);
       ("languages", nd_item "languages" nd);
       ("experience", nd_item "experience" nd);
       ("education", nd_item "education" nd)]
      context
  else context.

(** [template_route(template)]: the view registered for [template]. *)
Definition template_route (template : string) : World -> response * World :=
  login_required (fun _ w =>
    match sess_last_resume_file (session w) with
    | None => (Abort 400 "No resume data found. Please build your resume first.", w)
    | Some resume_file =>
        if negb (Py.truthy resume_file)
        then (Abort 400 "No resume data found. Please build your resume first.", w)
        else
          match resume_files w !! resume_file with
          | None => (Abort 400 "Saved resume not found on server.", w)
          | Some (JObj payload) =>
              match dict_get_or "data" (JObj []) payload with
              | JObj d =>
                  let nd := normalized_data d in
                  match initials (dict_get_or "name" JNull nd) with
                  | Some ini =>
                      (Render (template +:+ ".html") (build_context template nd ini), w)
                  | None => (ServerError, w)
                  end
              | _ => (ServerError, w)
              end
          | Some _ => (ServerError, w)
          end
    end).

(** The eight registered endpoints. *)
Definition ENDPOINTS : list string :=
  ["template1"; "template2"; "template3"; "template4";
   "template5"; "template6"; "template7"; "template8"].

End Views.

(** ** Vocabulary of the statements *)

(** The entity [escape_html] is meant to put for one character. *)
Definition escape_char (c : ascii) : string :=
  if Ascii.eqb c "&" then "&amp;"
  else if Ascii.eqb c "<" then "&lt;"
  else if Ascii.eqb c ">" then "&gt;"
  else if Ascii.eqb c dquote then "&quot;"
  else if Ascii.eqb c "'" then "&#39;"
  else String c "".

(** The five replacements of [escape_html], each as a map on characters. *)
Definition amp_pass (a : ascii) : string :=
  if Ascii.eqb "&" a then "&amp;" else String a "".
Definition lt_pass (a : ascii) : string :=
  if Ascii.eqb "<" a then "&lt;" else String a "".
Definition gt_pass (a : ascii) : string :=
  if Ascii.eqb ">" a then "&gt;" else String a "".
Definition quot_pass (a : ascii) : string :=
  if Ascii.eqb dquote a then "&quot;" else String a "".
Definition apos_pass (a : ascii) : string :=
  if Ascii.eqb "'" a then "&#39;" else String a "".

(** The fields of a resume the normalizer publishes. *)
Definition RESUME_FIELDS : list string :=
  ["name"; "title"; "email"; "phone"; "address"; "summary"; "skills";
   "languages"; "experience"; "education"; "photo"; "photo_exists"].

(** What the normalizer is to put for a field the document lacks. *)
Definition field_default (k : string) : json :=
  if str_in k ["name"; "title"; "email"; "phone"; "address"; "summary"] then JStr ""
  else if str_in k ["skills"; "languages"; "experience"; "education"] then JList []
  else if String.eqb k "photo_exists" then JBool false
  else JNull.

(** The names bound at top level for the templates with flat variables. *)
Definition FLAT_KEYS : list string :=
  ["name"; "title"; "email"; "phone"; "address"; "summary"; "skills";
   "languages"; "experience"; "education"].

Definition has_key {V} (k : string) (d : dict V) : bool :=
  match dict_get k d with
  | Some _ => true
  | None => false
  end.

(** A context has the flat bindings when every flat name is bound. *)
Definition has_flat_bindings (context : dict binding) : bool :=
  forallb (fun k => has_key k context) FLAT_KEYS.

(** A host for the closed examples: Werkzeug's [secure_filename] leaves
    the plain names used there as they are, and the two password
    functions are a matching pair. *)
Definition example_host : Host :=
  {| BASE_DIR := "/srv/app";
     secure_filename := fun s => s;
     generate_password_hash := fun p => "plain$" +:+ p;
     check_password_hash := fun h p => String.eqb h ("plain$" +:+ p) |}.

Definition example_user : SessionUser :=
  {| su_id := "u1"; su_name := "Ann"; su_email := "ann@example.org" |}.

(** Empty data directory, [example_user] logged in. *)
Definition example_world : World :=
  {| users_file := []; resume_files := ∅; upload_files := ∅;
     session := {| sess_user := Some example_user;
                   sess_last_resume_file := None;
                   sess_flashes := [] |} |}.

(** Empty data directory, nobody logged in. *)
Definition fresh_world : World :=
  {| users_file := []; resume_files := ∅; upload_files := ∅;
     session := {| sess_user := None;
                   sess_last_resume_file := None;
                   sess_flashes := [] |} |}.

Definition example_env (photo_ok : bool) : Env :=
  {| uuid_user := "0a"; uuid_photo := "0b"; uuid_resume := "0c";
     utcnow := "2024-05-01T10:00:00";
     photo_save_ok := photo_ok; resume_write_ok := true |}.

Definition example_form : MultiDict :=
  [("name", " Ann Lee "); ("skills", "Go, Rust, , Python");
   ("experience_title[]", "Engineer"); ("experience_company[]", "Acme");
   ("template", "template2")].

(** A submission that asks for a template that does not exist. *)
Definition template9_form : MultiDict :=
  [("name", "Ann Lee"); ("template", "template9")].

Definition example_photo : FileStorage :=
  {| fs_filename := "me.PNG"; fs_mimetype := "image/png"; fs_size := 1024 |}.

Definition signup_form : MultiDict :=
  [("name", "Ann"); ("email", "A@B.com"); ("password", "pw");
   ("confirm_password", "pw")].

(** The account [signup] appends for [signup_form] under [example_env]. *)
Definition example_account : dict json :=
  [("id", JStr "0a"); ("name", JStr "Ann"); ("email", JStr "a@b.com");
   ("password", JStr "plain$pw"); ("created_at", JStr "2024-05-01T10:00:00Z")].


(** ** The remaining views and filters *)

(** The line feed character. *)
Definition newline : ascii := ascii_of_nat 10.

(** The template filter [nl2br]. *)
Definition nl2br_filter (text : string) : string :=
  if negb (Py.truthy text) then ""
  else Py.replace (String newline "") "<br>" (escape_html text).

(** [session.pop("user", None)] *)
Definition pop_user (w : World) : World :=
  set_session
    {| sess_user := None;
       sess_last_resume_file := sess_last_resume_file (session w);
       sess_flashes := sess_flashes (session w) |} w.

(** [logout] *)
Definition logout (w : World) : response * World :=
  let w := pop_user w in
  let w := flash "Logged out." "info" w in
  (Redirect "home", w).

(** [dashboard] *)
Definition dashboard : World -> response * World :=
  login_required (fun user w =>
    (Render "index.html" [("user", BVal (JStr (su_name user)))], w)).

(** What [download_resume_json] answers with: the stored document sent as
    an attachment under a download name, or an ordinary response. *)
Inductive download : Type :=
| Attachment (download_name : string) (content : json)
| Instead (r : response).

(** [download_resume_json], with its [login_required] wrapper. *)
Definition download_resume_json (w : World) : download * World :=
  match sess_user (session w) with
  | None => (Instead (Redirect "login"), flash "Please log in to continue." "warning" w)
  | Some _ =>
      match sess_last_resume_file (session w) with
      | None =>
          (Instead (Redirect "dashboard"),
           flash "No resume available to download." "warning" w)
      | Some resume_file =>
          if negb (Py.truthy resume_file)
          then (Instead (Redirect "dashboard"),
                flash "No resume available to download." "warning" w)
          else
            match resume_files w !! resume_file with
            | None =>
                (Instead (Redirect "dashboard"),
                 flash "Saved resume not found." "error" w)
            | Some doc => (Attachment (Py.path_name resume_file) doc, w)
            end
      end
  end.

(** ** More vocabulary of the statements *)

(** One of the five characters [escape_html] replaces. *)
Definition needs_escape (c : ascii) : bool :=
  Ascii.eqb c "&" || Ascii.eqb c "<" || Ascii.eqb c ">"
  || Ascii.eqb c dquote || Ascii.eqb c "'".

(** No character of the text needs escaping. *)
Fixpoint plain_text (s : string) : bool :=
  match s with
  | EmptyString => true
  | String c s' => negb (needs_escape c) && plain_text s'
  end.

(** A line feed becomes a break, any other character its entity or itself. *)
Definition nl_escape (c : ascii) : string :=
  if Ascii.eqb c newline then "<br>" else escape_char c.

(** Reading the text from the left: a literal [<br>] stays a break, any
    other character goes through [nl_escape]; [skip] counts the
    characters of a [<br>] just read that are still to be passed over. *)
Fixpoint rich_from (skip : nat) (s : string) : string :=
  match s with
  | EmptyString => EmptyString
  | String c s' =>
      match skip with
      | S k => rich_from k s'
      | O =>
          if Py.startswith "<br>" s
          then "<br>" +:+ rich_from 3 s'
          else nl_escape c +:+ rich_from 0 s'
      end
  end.

(** Every character of the text is white space. *)
Fixpoint blank (s : string) : bool :=
  match s with
  | EmptyString => true
  | String c s' => Py.is_space c && blank s'
  end.

(** The address an account of the users file is stored under, if it has
    one. *)
Definition account_email (u : dict json) : option string :=
  match dict_get "email" u with
  | Some (JStr e) => Some e
  | _ => None
  end.

(** The addresses of the accounts of the users file, in order. *)
Definition registered_emails (users : list (dict json)) : list string :=
  omap account_email users.


(** ** More sample requests *)

(** An upload of the wrong type. *)
Definition text_upload : FileStorage :=
  {| fs_filename := "notes.txt"; fs_mimetype := "text/plain"; fs_size := 10 |}.

(** A request during which the resume document cannot be written. *)
Definition failing_write_env : Env :=
  {| uuid_user := "0a"; uuid_photo := "0b"; uuid_resume := "0c";
     utcnow := "2024-05-01T10:00:00";
     photo_save_ok := true; resume_write_ok := false |}.

(** A second registration for the address of [signup_form], spelled in
    another letter case. *)
Definition second_signup_form : MultiDict :=
  [("name", "Bob"); ("email", "a@B.COM"); ("password", "x");
   ("confirm_password", "x")].

Definition login_form : MultiDict :=
  [("email", " A@b.com "); ("password", "pw")].

(** The state after [signup_form] was registered on an empty data
    directory. *)
Definition registered_world : World :=
  (signup (H := example_host) (example_env true) signup_form fresh_world).2.


(** * Facts *)

(** ** Strings *)

Section PyFacts.

Import Py.

Lemma append_cons (x : ascii) (a b : string) :
  String x a +:+ b = String x (a +:+ b).
Proof. reflexivity. Qed.

Lemma append_assoc (a b c : string) : (a +:+ b) +:+ c = a +:+ (b +:+ c).
Proof.
  induction a as [|x a IH]; [reflexivity|].
  now rewrite !append_cons, IH.
Qed.

Lemma append_empty_r (a : string) : a +:+ "" = a.
Proof.
  induction a as [|x a IH]; [reflexivity|].
  now rewrite append_cons, IH.
Qed.

Lemma truthy_append (a b : string) : truthy (a +:+ b) = truthy a || truthy b.
Proof. destruct a; reflexivity. Qed.

Lemma lower_char_idem (c : ascii) : lower_char (lower_char c) = lower_char c.
Proof. destruct c as [[] [] [] [] [] [] [] []]; reflexivity. Qed.

Lemma is_space_lower_char (c : ascii) : is_space (lower_char c) = is_space c.
Proof. destruct c as [[] [] [] [] [] [] [] []]; reflexivity. Qed.

Lemma lower_idem (s : string) : lower (lower s) = lower s.
Proof.
  induction s as [|c s IH]; simpl; [reflexivity|].
  now rewrite lower_char_idem, IH.
Qed.

Lemma lstrip_lower (s : string) : lstrip (lower s) = lower (lstrip s).
Proof.
  induction s as [|c s IH]; simpl; [reflexivity|].
  rewrite is_space_lower_char. destruct (is_space c); [exact IH | reflexivity].
Qed.

Lemma rstrip_lower (s : string) : rstrip (lower s) = lower (rstrip s).
Proof.
  induction s as [|c s IH]; simpl; [reflexivity|].
  rewrite IH, is_space_lower_char.
  destruct (rstrip s); simpl; [destruct (is_space c) |]; reflexivity.
Qed.

(** Trimming and lower-casing commute, so two spellings of an address that
    differ in letter case only are normalized to the same key. *)
Lemma strip_lower (s : string) : strip (lower s) = lower (strip s).
Proof. unfold strip. now rewrite lstrip_lower, rstrip_lower. Qed.

Lemma lower_strip_same_case (q e : string) :
  lower q = lower e -> lower (strip q) = lower (strip e).
Proof. intros Hqe. now rewrite <- !strip_lower, Hqe. Qed.

Lemma expand_append (f : ascii -> string) (a b : string) :
  expand f (a +:+ b) = expand f a +:+ expand f b.
Proof.
  induction a as [|x a IH]; [reflexivity|].
  change (f x +:+ expand f (a +:+ b) = (f x +:+ expand f a) +:+ expand f b).
  now rewrite IH, append_assoc.
Qed.

(** Replacing a one-character pattern works character by character. *)
Lemma replace_char (c : ascii) (new s : string) :
  replace (String c "") new s
  = expand (fun a => if Ascii.eqb c a then new else String a "") s.
Proof.
  unfold replace.
  induction s as [|a s IH]; simpl; [reflexivity|].
  destruct (Ascii.eqb c a); simpl; now rewrite IH.
Qed.

Lemma split_from_nonempty (sep : string) (skip : nat) (cur s : string) :
  split_from sep skip cur s <> [].
Proof.
  revert skip cur; induction s as [|a s IH]; intros skip cur; simpl; [discriminate|].
  destruct skip; [|apply IH].
  destruct (startswith sep (String a s)); [discriminate | apply IH].
Qed.

Lemma join_cons (sep x : string) (l : list string) :
  l <> [] -> join sep (x :: l) = x +:+ sep +:+ join sep l.
Proof. destruct l; [congruence | reflexivity]. Qed.

(** Splitting on a character loses nothing: the pieces joined by that
    character give the text back, in order. *)
Lemma join_split_from (c : ascii) (cur s : string) :
  join (String c "") (split_from (String c "") 0 cur s) = cur +:+ s.
Proof.
  revert cur; induction s as [|a s IH]; intros cur.
  - simpl. now rewrite append_empty_r.
  - cbn [split_from startswith String.length Nat.sub].
    destruct (Ascii.eqb_spec c a) as [->|Hne]; cbn [andb].
    + rewrite join_cons by apply split_from_nonempty.
      rewrite IH. reflexivity.
    + rewrite IH, append_assoc. reflexivity.
Qed.

Lemma has_char_append (c : ascii) (a b : string) :
  has_char c (a +:+ b) = has_char c a || has_char c b.
Proof.
  induction a as [|x a IH]; [reflexivity|].
  rewrite append_cons. simpl. now rewrite IH, orb_assoc.
Qed.

Lemma split_from_no_sep (c : ascii) (cur s : string) :
  has_char c cur = false ->
  Forall (fun piece => has_char c piece = false) (split_from (String c "") 0 cur s).
Proof.
  revert cur; induction s as [|a s IH]; intros cur Hcur.
  - constructor; [assumption | constructor].
  - cbn [split_from startswith String.length Nat.sub].
    destruct (Ascii.eqb_spec c a) as [->|Hne]; cbn [andb].
    + constructor; [assumption | now apply IH].
    + apply IH. rewrite has_char_append, Hcur. simpl.
      rewrite orb_false_r. apply Ascii.eqb_neq. congruence.
Qed.

Lemma map_filter_comm {A B} (f : A -> B) (p : B -> bool) (l : list A) :
  map f (List.filter (fun x => p (f x)) l) = List.filter p (map f l).
Proof.
  induction l as [|x l IH]; simpl; [reflexivity|].
  destruct (p (f x)); simpl; now rewrite IH.
Qed.

End PyFacts.

(** ** Dictionaries *)

Section DictFacts.

Context {V : Type}.
Implicit Types (d : dict V) (k : string) (v : V).

Lemma dict_get_set_eq k v d : dict_get k (dict_set k v d) = Some v.
Proof.
  induction d as [|[k' v'] d IH]; simpl.
  - now rewrite String.eqb_refl.
  - destruct (String.eqb k' k) eqn:E; simpl.
    + now rewrite String.eqb_refl.
    + now rewrite E.
Qed.

Lemma dict_get_set_ne k k' v d :
  k <> k' -> dict_get k' (dict_set k v d) = dict_get k' d.
Proof.
  intros Hne. induction d as [|[k0 v0] d IH]; simpl.
  - apply String.eqb_neq in Hne. now rewrite Hne.
  - destruct (String.eqb_spec k0 k) as [->|Hk]; simpl.
    + apply String.eqb_neq in Hne. now rewrite Hne.
    + destruct (String.eqb k0 k'); [reflexivity | exact IH].
Qed.

Lemma dict_set_set k v v' d : dict_set k v' (dict_set k v d) = dict_set k v' d.
Proof.
  induction d as [|[k0 v0] d IH]; simpl.
  - now rewrite String.eqb_refl.
  - destruct (String.eqb k0 k) eqn:E; simpl.
    + now rewrite String.eqb_refl.
    + now rewrite E, IH.
Qed.

End DictFacts.

(** A loop of [append] calls on the list under [k] leaves the list with
    the appended blocks after the ones it had. *)
Lemma append_blocks (k : string) (block : nat -> json) (indices : list nat) :
  forall (data : dict json) (l0 : list json),
    dict_get k data = Some (JList l0) ->
    fold_left (fun data i => append_block k (block i) data) indices data
    = dict_set k (JList (l0 ++ map block indices)%list) data.
Proof.
  induction indices as [|i indices IH]; intros data l0 Hget; simpl.
  - rewrite app_nil_r. clear -Hget.
    induction data as [|[k0 v0] data IHd]; simpl in *; [discriminate|].
    destruct (String.eqb_spec k0 k) as [->|Hk].
    + now inversion Hget.
    + f_equal. now apply IHd.
  - unfold append_block at 2. rewrite Hget.
    rewrite (IH _ (l0 ++ [block i])%list) by apply dict_get_set_eq.
    now rewrite dict_set_set, <- app_assoc.
Qed.

Lemma item_or_empty_lookup (l : list string) (i : nat) :
  item_or_empty l i = default "" (l !! i).
Proof.
  unfold item_or_empty. rewrite <- nth_lookup.
  destruct (Nat.ltb_spec i (length l)); [reflexivity|].
  now rewrite nth_overflow.
Qed.

Lemma str_in_spec (x : string) (l : list string) : str_in x l = true <-> x ∈ l.
Proof.
  unfold str_in. rewrite existsb_exists. split.
  - intros (y & Hy & E). apply String.eqb_eq in E. subst.
    now apply list_elem_of_In.
  - intros Hx. exists x. split; [now apply list_elem_of_In | apply String.eqb_refl].
Qed.

Lemma str_in_false (x : string) (l : list string) : str_in x l = false <-> x ∉ l.
Proof.
  rewrite <- str_in_spec. destruct (str_in x l); split; congruence.
Qed.

(** ** The fields [generate] assembles *)

Lemma assemble_fields_eq (env : Env) (form : MultiDict) :
  assemble_fields env form =
  [("name", JStr (Py.strip (form_get "name" "" form)));
   ("title", JStr (Py.strip (form_get "title" "" form)));
   ("email", JStr (Py.strip (form_get "email" "" form)));
   ("phone", JStr (Py.strip (form_get "phone" "" form)));
   ("address", JStr (Py.strip (form_get "address" "" form)));
   ("summary", JStr (Py.strip (form_get "summary" "" form)));
   ("skills", JList (map JStr (parse_skills (form_get "skills" "" form))));
   ("languages", JList (map JStr (clean_list (form_getlist "languages[]" form))));
   ("experience",
     JList (experience_records (form_getlist "experience_title[]" form)
              (form_getlist "experience_company[]" form)
              (form_getlist "experience_duration[]" form)
              (form_getlist "experience_description[]" form)));
   ("education",
     JList (education_records (form_getlist "education_degree[]" form)
              (form_getlist "education_university[]" form)
              (form_getlist "education_year[]" form)));
   ("created_at", JStr (utcnow env +:+ "Z"))].
Proof.
  unfold assemble_fields, education_blocks, experience_blocks.
  rewrite (append_blocks "experience" _ _ (basic_fields env form) []) by reflexivity.
  rewrite (append_blocks "education" _ _ _ []) by reflexivity.
  reflexivity.
Qed.

Lemma experience_records_lookup (titles companies durations descs : list string)
  (i : nat) :
  experience_records titles companies durations descs !! i
  = (fun t => JObj [("title", JStr t);
                    ("company", JStr (default "" (companies !! i)));
                    ("duration", JStr (default "" (durations !! i)));
                    ("description", JStr (default "" (descs !! i)))])
    <$> titles !! i.
Proof.
  unfold experience_records. rewrite list_lookup_fmap.
  destruct (Nat.lt_ge_cases i (length titles)) as [Hlt|Hge].
  - rewrite lookup_seq_lt by exact Hlt. simpl.
    destruct (lookup_lt_is_Some_2 titles i Hlt) as [t Ht].
    rewrite Ht. simpl. unfold experience_block.
    rewrite !item_or_empty_lookup, <- nth_lookup.
    now rewrite (nth_lookup_Some _ _ _ _ Ht).
  - rewrite lookup_seq_ge by exact Hge.
    now rewrite (lookup_ge_None_2 titles i Hge).
Qed.

Lemma education_records_lookup (degrees unis years : list string) (i : nat) :
  education_records degrees unis years !! i
  = (fun g => JObj [("degree", JStr g);
                    ("university", JStr (default "" (unis !! i)));
                    ("year", JStr (default "" (years !! i)))])
    <$> degrees !! i.
Proof.
  unfold education_records. rewrite list_lookup_fmap.
  destruct (Nat.lt_ge_cases i (length degrees)) as [Hlt|Hge].
  - rewrite lookup_seq_lt by exact Hlt. simpl.
    destruct (lookup_lt_is_Some_2 degrees i Hlt) as [g Hg].
    rewrite Hg. simpl. unfold education_block.
    rewrite !item_or_empty_lookup, <- nth_lookup.
    now rewrite (nth_lookup_Some _ _ _ _ Hg).
  - rewrite lookup_seq_ge by exact Hge.
    now rewrite (lookup_ge_None_2 degrees i Hge).
Qed.

(** ** Parallel form arrays *)

(** C1.  The experience records of a submission are as many as its titles
    (the education records as many as its degrees); record [i] takes the
    [i]-th title and, from each companion array, the [i]-th entry or the
    empty string when that array is too short; companion entries at
    positions from the number of titles on yield no record.  Three titles
    with two companies give three records, the third with an empty
    company. *)
Theorem assemble_parallel_arrays (env : Env) (form : MultiDict) :
  let titles := form_getlist "experience_title[]" form in
  let companies := form_getlist "experience_company[]" form in
  let durations := form_getlist "experience_duration[]" form in
  let descs := form_getlist "experience_description[]" form in
  let degrees := form_getlist "education_degree[]" form in
  let unis := form_getlist "education_university[]" form in
  let years := form_getlist "education_year[]" form in
  (exists exps edus : list json,
     dict_get "experience" (assemble_fields env form) = Some (JList exps) /\
     dict_get "education" (assemble_fields env form) = Some (JList edus) /\
     length exps = length titles /\
     length edus = length degrees /\
     (forall i : nat,
        exps !! i
        = (fun t => JObj [("title", JStr t);
                          ("company", JStr (default "" (companies !! i)));
                          ("duration", JStr (default "" (durations !! i)));
                          ("description", JStr (default "" (descs !! i)))])
          <$> titles !! i) /\
     (forall i : nat,
        edus !! i
        = (fun g => JObj [("degree", JStr g);
                          ("university", JStr (default "" (unis !! i)));
                          ("year", JStr (default "" (years !! i)))])
          <$> degrees !! i) /\
     (forall i : nat, length titles <= i -> exps !! i = None) /\
     (forall i : nat, length degrees <= i -> edus !! i = None)) /\
  dict_get "experience"
    (assemble_fields env
       [("experience_title[]", "Engineer"); ("experience_company[]", "Acme");
        ("experience_title[]", "Lead"); ("experience_company[]", "Initech");
        ("experience_title[]", "Director")])
  = Some (JList
      [JObj [("title", JStr "Engineer"); ("company", JStr "Acme");
             ("duration", JStr ""); ("description", JStr "")];
       JObj [("title", JStr "Lead"); ("company", JStr "Initech");
             ("duration", JStr ""); ("description", JStr "")];
       JObj [("title", JStr "Director"); ("company", JStr "");
             ("duration", JStr ""); ("description", JStr "")]]).
Proof.
  intros titles companies durations descs degrees unis years. split.
  - exists (experience_records titles companies durations descs),
           (education_records degrees unis years).
    rewrite assemble_fields_eq.
    split; [reflexivity|]. split; [reflexivity|].
    split; [unfold experience_records; now rewrite length_map, length_seq|].
    split; [unfold education_records; now rewrite length_map, length_seq|].
    split; [apply experience_records_lookup|].
    split; [apply education_records_lookup|].
    split; intros i Hi.
    + rewrite experience_records_lookup.
      now rewrite (lookup_ge_None_2 titles i Hi).
    + rewrite education_records_lookup.
      now rewrite (lookup_ge_None_2 degrees i Hi).
  - reflexivity.
Qed.

(** ** Skills *)

(** C9.  The skills of a submission are the comma-separated pieces of the
    skills field, each trimmed, the empty ones left out, in their order:
    the pieces joined by commas give the field back and no piece holds a
    comma; ["Go, Rust, , Python"] gives [Go], [Rust], [Python]. *)
Theorem skills_split_trim_filter (env : Env) (form : MultiDict) :
  let text := form_get "skills" "" form in
  dict_get "skills" (assemble_fields env form)
  = Some (JList (map JStr
       (List.filter Py.truthy (map Py.strip (Py.split "," text))))) /\
  Py.join "," (Py.split "," text) = text /\
  Forall (fun piece => Py.has_char "," piece = false) (Py.split "," text) /\
  parse_skills "Go, Rust, , Python" = ["Go"; "Rust"; "Python"].
Proof.
  intros text. repeat split.
  - rewrite assemble_fields_eq. cbn [dict_get String.eqb Ascii.eqb Bool.eqb].
    unfold parse_skills. fold text.
    now rewrite (map_filter_comm Py.strip Py.truthy).
  - apply (join_split_from "," "" text).
  - now apply split_from_no_sep.
Qed.

(** ** Escaping *)

Lemma five_passes_char (a : ascii) :
  Py.expand apos_pass
    (Py.expand quot_pass (Py.expand gt_pass (Py.expand lt_pass (amp_pass a))))
  = escape_char a.
Proof. destruct a as [[] [] [] [] [] [] [] []]; reflexivity. Qed.

Lemma five_passes (s : string) :
  Py.expand apos_pass
    (Py.expand quot_pass (Py.expand gt_pass
       (Py.expand lt_pass (Py.expand amp_pass s))))
  = Py.expand escape_char s.
Proof.
  induction s as [|a s IH]; [reflexivity|].
  cbn [Py.expand]. rewrite !expand_append, IH, five_passes_char. reflexivity.
Qed.

Lemma expand_expand (f g : ascii -> string) (s : string) :
  Py.expand g (Py.expand f s) = Py.expand (fun c => Py.expand g (f c)) s.
Proof.
  induction s as [|a s IH]; [reflexivity|].
  cbn [Py.expand]. now rewrite expand_append, IH.
Qed.

Lemma escape_html_expand (s : string) : escape_html s = Py.expand escape_char s.
Proof.
  unfold escape_html. destruct s as [|a s]; [reflexivity|].
  cbn [Py.truthy negb]. rewrite !replace_char. apply five_passes.
Qed.

(** C5 (amended).  One application of [escape_html] puts, character by
    character, the entity for each of the five characters and leaves the
    others: the ampersands of the entities it emits are not escaped again
    within that application.  A second application escapes the output of
    the first in the same way, its ampersands included. *)
Theorem escape_html_single_pass (s : string) :
  escape_html s = Py.expand escape_char s /\
  escape_html (escape_html s)
  = Py.expand (fun c => Py.expand escape_char (escape_char c)) s.
Proof.
  split; [apply escape_html_expand|].
  now rewrite !escape_html_expand, expand_expand.
Qed.

(** C5 as stated fails: the entity put for ["<"] is escaped again by a
    second application. *)
Lemma escape_html_not_idempotent :
  escape_html (escape_html "<") = "&amp;lt;" /\
  escape_html (escape_html "<") <> escape_html "<".
Proof. split; [reflexivity | discriminate]. Qed.

(** ** The upload checks *)

Section Uploads.

Context `{H : Host}.

Lemma allowed_file_spec (filename : string) (mimetype : option string) :
  allowed_file filename mimetype = true <->
  Py.lower (Py.suffix filename) ∈ [".png"; ".jpg"; ".jpeg"] /\
  match mimetype with
  | None => True
  | Some m => m = "" \/ m ∈ ["image/png"; "image/jpeg"]
  end.
Proof.
  unfold allowed_file.
  destruct (str_in (Py.lower (Py.suffix filename)) ALLOWED_EXT) eqn:Eext;
    cbn [negb].
  - apply str_in_spec in Eext.
    destruct mimetype as [m|]; [|tauto].
    destruct (str_in m ALLOWED_MIMETYPES) eqn:Em.
    + apply str_in_spec in Em. rewrite andb_false_r. tauto.
    + apply str_in_false in Em. rewrite andb_true_r.
      destruct m as [|c m]; cbn [Py.truthy].
      * tauto.
      * split; [discriminate|]. intros [_ [Hm|Hm]]; [discriminate | contradiction].
  - apply str_in_false in Eext. split; [discriminate|]. intros [He _]. contradiction.
Qed.

(** C4.  A named upload goes on exactly when the lower-cased extension of
    its file name is one of [.png], [.jpg], [.jpeg], its declared content
    type is missing or one of [image/png], [image/jpeg], and its size is
    at most 2 MiB; [generate] returns early on a named upload exactly
    when one of these fails. *)
Theorem upload_accepted_iff :
  (forall (filename mimetype : string) (file_size : Z),
     photo_rejection filename mimetype file_size = None <->
     Py.lower (Py.suffix filename) ∈ [".png"; ".jpg"; ".jpeg"] /\
     (mimetype = "" \/ mimetype ∈ ["image/png"; "image/jpeg"]) /\
     (file_size <= 2 * 1024 * 1024)%Z) /\
  (forall filename : string,
     allowed_file filename None = true <->
     Py.lower (Py.suffix filename) ∈ [".png"; ".jpg"; ".jpeg"]) /\
  (forall (env : Env) (photo_file : FileStorage) (data : dict json) (w : World),
     (exists early, generate_photo env (Some photo_file) data w = inl early) <->
     Py.truthy (fs_filename photo_file) = true /\
     photo_rejection (secure_filename (fs_filename photo_file))
       (fs_mimetype photo_file) (fs_size photo_file) <> None).
Proof.
  split; [|split].
  - intros filename mimetype file_size. unfold photo_rejection.
    pose proof (allowed_file_spec filename (Some mimetype)) as Hallowed.
    destruct (allowed_file filename (Some mimetype)); simpl.
    + destruct (Z.gtb_spec file_size MAX_CONTENT_LENGTH) as [Hgt|Hle].
      * split; [discriminate|]. intros (_ & _ & Hsz).
        unfold MAX_CONTENT_LENGTH in Hgt. lia.
      * split; [|reflexivity]. intros _.
        destruct Hallowed as [Hallowed _]. destruct (Hallowed eq_refl) as [He Hm].
        unfold MAX_CONTENT_LENGTH in Hle. repeat split; assumption.
    + split; [discriminate|]. intros (He & Hm & _).
      destruct Hallowed as [_ Hallowed]. now specialize (Hallowed (conj He Hm)).
  - intros filename. rewrite allowed_file_spec. tauto.
  - intros env photo_file data w. unfold generate_photo.
    destruct (Py.truthy (fs_filename photo_file)).
    + destruct (photo_rejection _ _ _) as [message|].
      * split; [intros _; split; [reflexivity | discriminate] | eauto].
      * destruct (photo_save_ok env);
          (split; [intros [early Hearly]; discriminate | intros [_ Hne]; congruence]).
    + split; [intros [early Hearly]; discriminate | intros [Hf _]; discriminate].
Qed.

End Uploads.

(** ** Template contexts *)

Ltac elem_cases Hk :=
  repeat (apply elem_of_cons in Hk as [->|Hk]);
  try (apply elem_of_nil in Hk; contradiction).

(** For each published field the normalizer binds the stored value, and
    the field's default when the document has no such key. *)
Lemma normalized_data_get (d : dict json) (k : string) :
  k ∈ RESUME_FIELDS ->
  dict_get k (normalized_data d) = Some (default (field_default k) (dict_get k d)).
Proof.
  intros Hk. unfold RESUME_FIELDS in Hk. unfold normalized_data, dict_get_or.
  elem_cases Hk; cbn [dict_get String.eqb Ascii.eqb Bool.eqb];
    match goal with |- context [dict_get ?key d] => destruct (dict_get key d) end;
    reflexivity.
Qed.

(** C6 (amended).  The flat top-level bindings are added, next to the
    nested data object, for exactly five of the eight templates
    ([template1], [template5], [template6], [template7], [template8]);
    where they are added each of them is the entry of the same normalized
    data the nested object holds, and for the other three templates none
    of the ten names is bound. *)
Theorem flat_bindings_for_five_templates (d : dict json) (ini : string) :
  let nd := normalized_data d in
  List.filter (fun t => has_flat_bindings (build_context t nd ini)) ENDPOINTS
  = ["template1"; "template5"; "template6"; "template7"; "template8"] /\
  ENDPOINTS = TEMPLATE_NAMES /\
  (forall t : string, dict_get "data" (build_context t nd ini) = Some (BVal (JObj nd))) /\
  (forall t k : string,
     k ∈ FLAT_KEYS ->
     dict_get k (build_context t nd ini)
     = if str_in t FLAT_TEMPLATES then BVal <$> dict_get k nd else None) /\
  (forall k : string, k ∈ FLAT_KEYS -> is_Some (dict_get k nd)).
Proof.
  intros nd. split; [reflexivity|]. split; [reflexivity|]. split; [|split].
  - intros t. unfold build_context.
    destruct (str_in t FLAT_TEMPLATES); reflexivity.
  - intros t k Hk. unfold build_context, FLAT_KEYS in *.
    destruct (str_in t FLAT_TEMPLATES); elem_cases Hk; reflexivity.
  - intros k Hk. unfold FLAT_KEYS in Hk. elem_cases Hk; eexists; reflexivity.
Qed.

(** C6 as stated fails: the templates with flat bindings are not four. *)
Lemma flat_bindings_not_four :
  length (List.filter
            (fun t => has_flat_bindings (build_context t (normalized_data []) ""))
            ENDPOINTS) <> 4%nat.
Proof. cbv. discriminate. Qed.

(** ** Storing a resume and reading it back *)

Section Generate.

Context `{H : Host}.

Lemma resume_path_truthy (user_id resume_id : string) :
  Py.truthy (resume_path user_id resume_id) = true.
Proof.
  unfold resume_path, RESUMES_DIR, DATA_DIR.
  rewrite !truthy_append. simpl. now rewrite !orb_true_r.
Qed.

(** What the photo block can hand on: the assembled fields with
    [photo_exists] set, and with [photo] set only when a file was saved;
    the session user and the resume files are as before. *)
Lemma generate_photo_inr (env : Env) (photo : option FileStorage)
  (fields data : dict json) (w w1 : World) :
  generate_photo env photo fields w = inr (data, w1) ->
  sess_user (session w1) = sess_user (session w) /\
  resume_files w1 = resume_files w /\
  (data = dict_set "photo_exists" (JBool false) fields \/
   exists p : string,
     data = dict_set "photo_exists" (JBool true) (dict_set "photo" (JStr p) fields)).
Proof.
  unfold generate_photo. intros Hgen.
  destruct photo as [photo_file|].
  - destruct (Py.truthy (fs_filename photo_file)).
    + destruct (photo_rejection _ _ _); [discriminate|].
      destruct (photo_save_ok env); inversion Hgen; subst; clear Hgen.
      * repeat split; [reflexivity.. | right; eauto].
      * repeat split; [reflexivity.. | now left].
    + inversion Hgen; subst. repeat split; [reflexivity.. | now left].
  - inversion Hgen; subst. repeat split; [reflexivity.. | now left].
Qed.

(** With the write going through, [generate_store] leaves the document
    under the path it puts in the session, whatever the template. *)
Lemma generate_store_persists (env : Env) (form : MultiDict) (user : SessionUser)
  (data : dict json) (w : World) :
  resume_write_ok env = true ->
  let w' := (generate_store env form user data w).2 in
  let handle := resume_path (su_id user) (uuid_resume env) in
  resume_files w' !! handle
  = Some (JObj [("id", JStr (uuid_resume env)); ("user_id", JStr (su_id user));
                ("data", JObj data)]) /\
  sess_last_resume_file (session w') = Some handle /\
  sess_user (session w') = sess_user (session w) /\
  upload_files w' = upload_files w /\
  (forall m, m ∈ sess_flashes (session w) -> m ∈ sess_flashes (session w')).
Proof.
  intros Hok. unfold generate_store. rewrite Hok.
  destruct (negb (str_in (form_get "template" "template1" form) TEMPLATE_NAMES));
    cbn -[resume_path]; rewrite lookup_insert_eq;
    repeat split; try reflexivity; intros m Hm; [|exact Hm].
  apply elem_of_app. now left.
Qed.

(** The template is looked at only once the document is written and the
    session points to it: an unknown name is answered with the rejection,
    with both effects in place. *)
Lemma generate_store_unknown_template (env : Env) (form : MultiDict)
  (user : SessionUser) (data : dict json) (w : World) :
  resume_write_ok env = true ->
  form_get "template" "template1" form ∉ TEMPLATE_NAMES ->
  let handle := resume_path (su_id user) (uuid_resume env) in
  generate_store env form user data w
  = (Redirect "dashboard",
     flash "Invalid template selected." "error"
       (set_last_resume_file handle
          (write_resume handle
             (JObj [("id", JStr (uuid_resume env)); ("user_id", JStr (su_id user));
                    ("data", JObj data)]) w))).
Proof.
  intros Hok Hbad. apply str_in_false in Hbad.
  unfold generate_store. now rewrite Hok, Hbad.
Qed.

Lemma template_route_renders (template : string) (w : World) (user : SessionUser)
  (handle : string) (meta : dict json) (data : dict json) (name : string) :
  sess_user (session w) = Some user ->
  sess_last_resume_file (session w) = Some handle ->
  Py.truthy handle = true ->
  resume_files w !! handle = Some (JObj meta) ->
  dict_get_or "data" (JObj []) meta = JObj data ->
  dict_get "name" data = Some (JStr name) ->
  template_route template w
  = (Render (template +:+ ".html")
       (build_context template (normalized_data data) (initials_str name)), w).
Proof.
  intros Hu Hl Ht Hf Hd Hn. unfold template_route, login_required.
  rewrite Hu, Hl, Ht. cbn [negb]. rewrite Hf, Hd.
  replace (dict_get_or "name" JNull (normalized_data data)) with (JStr name).
  - reflexivity.
  - unfold normalized_data, dict_get_or. cbn [dict_get String.eqb Ascii.eqb Bool.eqb].
    now rewrite Hn.
Qed.

(** C3.  A record assembled from a submission and stored is found under
    the handle kept in the session; a template view then renders the
    normalization of exactly that record, where every published field
    has the stored value; the only field an assembled record can lack is
    [photo], which is then bound to [None]; and on any document a default
    (empty string, empty list, [False], or [None] for [photo]) appears
    only for a key the document does not have. *)
Theorem resume_roundtrip (env : Env) (form : MultiDict) (photo : option FileStorage)
  (w w1 : World) (user : SessionUser) (data : dict json) (template : string) :
  sess_user (session w) = Some user ->
  generate_photo env photo (assemble_fields env form) w = inr (data, w1) ->
  resume_write_ok env = true ->
  let w' := (generate env form photo w).2 in
  let handle := resume_path (su_id user) (uuid_resume env) in
  let nd := normalized_data data in
  resume_files w' !! handle
  = Some (JObj [("id", JStr (uuid_resume env)); ("user_id", JStr (su_id user));
                ("data", JObj data)]) /\
  sess_last_resume_file (session w') = Some handle /\
  (exists ini : string,
     template_route template w'
     = (Render (template +:+ ".html") (build_context template nd ini), w')) /\
  (forall (k : string) (v : json),
     k ∈ RESUME_FIELDS -> dict_get k data = Some v -> dict_get k nd = Some v) /\
  (forall k : string,
     k ∈ RESUME_FIELDS -> dict_get k data = None ->
     k = "photo" /\ dict_get k nd = Some JNull) /\
  (forall (d : dict json) (k : string),
     k ∈ RESUME_FIELDS ->
     dict_get k (normalized_data d)
     = Some (default (field_default k) (dict_get k d))).
Proof.
  intros Huser Hphoto Hok w' handle nd.
  assert (Hw' : w' = (generate_store env form user data w1).2).
  { subst w'. unfold generate, login_required. now rewrite Huser, Hphoto. }
  destruct (generate_photo_inr _ _ _ _ _ _ Hphoto) as (Hu1 & _ & Hdata).
  destruct (generate_store_persists env form user data w1 Hok)
    as (Hfile & Hlast & Hu' & _).
  rewrite <- Hw' in Hfile, Hlast, Hu'.
  assert (Hname : dict_get "name" data
                  = Some (JStr (Py.strip (form_get "name" "" form)))).
  { rewrite assemble_fields_eq in Hdata.
    destruct Hdata as [->|[p ->]]; reflexivity. }
  split; [exact Hfile|]. split; [exact Hlast|]. split; [|split; [|split]].
  - eexists. eapply template_route_renders; try eassumption.
    + rewrite Hu', Hu1. exact Huser.
    + apply resume_path_truthy.
    + reflexivity.
  - intros k v Hk Hv. subst nd. now rewrite normalized_data_get, Hv.
  - intros k Hk Hnone. subst nd. rewrite normalized_data_get, Hnone by exact Hk.
    rewrite assemble_fields_eq in Hdata. unfold RESUME_FIELDS in Hk.
    destruct Hdata as [->|[p ->]]; elem_cases Hk;
      first [discriminate Hnone | split; reflexivity].
  - intros d k Hk. now apply normalized_data_get.
Qed.

(** C10.  When an upload passes the checks and saving the file fails,
    [generate] goes on: the record is stored with [photo_exists] false
    and without a [photo] key, the session holds its handle, no upload
    file is written, the failure is flashed, and the response is the one
    the template choice gives. *)
Theorem photo_save_failure_keeps_resume (env : Env) (form : MultiDict)
  (photo_file : FileStorage) (w : World) (user : SessionUser) :
  sess_user (session w) = Some user ->
  Py.truthy (fs_filename photo_file) = true ->
  photo_rejection (secure_filename (fs_filename photo_file))
    (fs_mimetype photo_file) (fs_size photo_file) = None ->
  photo_save_ok env = false ->
  resume_write_ok env = true ->
  let w' := (generate env form (Some photo_file) w).2 in
  let handle := resume_path (su_id user) (uuid_resume env) in
  let tmpl := form_get "template" "template1" form in
  (exists data : dict json,
     resume_files w' !! handle
     = Some (JObj [("id", JStr (uuid_resume env)); ("user_id", JStr (su_id user));
                   ("data", JObj data)]) /\
     dict_get "photo_exists" data = Some (JBool false) /\
     dict_get "photo" data = None) /\
  sess_last_resume_file (session w') = Some handle /\
  upload_files w' = upload_files w /\
  ("Error saving photo. Please try again.", "error") ∈ sess_flashes (session w') /\
  (generate env form (Some photo_file) w).1
  = (if str_in tmpl TEMPLATE_NAMES then Redirect tmpl else Redirect "dashboard").
Proof.
  intros Huser Hnamed Hpass Hsave Hok w' handle tmpl.
  set (data := dict_set "photo_exists" (JBool false) (assemble_fields env form)).
  set (w1 := flash "Error saving photo. Please try again." "error" w).
  assert (Hgen : generate env form (Some photo_file) w
                 = generate_store env form user data w1).
  { unfold generate, login_required, generate_photo.
    now rewrite Huser, Hnamed, Hpass, Hsave. }
  subst w'. rewrite Hgen.
  destruct (generate_store_persists env form user data w1 Hok)
    as (Hfile & Hlast & _ & Hup & Hflash).
  split; [|split; [exact Hlast | split; [exact Hup | split]]].
  - exists data. split; [exact Hfile|]. subst data.
    rewrite assemble_fields_eq. split; reflexivity.
  - apply Hflash. subst w1. cbn. apply elem_of_app. right. apply elem_of_cons.
    now left.
  - unfold generate_store. rewrite Hok. fold tmpl.
    destruct (str_in tmpl TEMPLATE_NAMES); reflexivity.
Qed.

End Generate.

(** ** Accounts *)

Lemma email_is_spec (email : string) (u : dict json) :
  email_is email u = true <-> dict_get "email" u = Some (JStr email).
Proof.
  unfold email_is. destruct (dict_get "email" u) as [[| |e| |]|];
    try (split; discriminate).
  split.
  - intros E. apply String.eqb_eq in E. now subst.
  - intros E. inversion E; subst. apply String.eqb_refl.
Qed.

(** The lookup returns an account of the file whose stored address is the
    query itself, character for character. *)
Lemma find_user_by_email_some (email : string) (users : list (dict json))
  (u : dict json) :
  find_user_by_email email users = Some u ->
  u ∈ users /\ dict_get "email" u = Some (JStr email).
Proof.
  induction users as [|v users IH]; simpl; [discriminate|].
  destruct (email_is email v) eqn:E.
  - intros Hu. inversion Hu; subst. split; [apply elem_of_cons; now left|].
    now apply email_is_spec.
  - intros Hu. destruct (IH Hu) as [Hin He].
    split; [apply elem_of_cons; now right | exact He].
Qed.

Lemma find_user_by_email_found (email : string) (users : list (dict json))
  (u : dict json) :
  u ∈ users -> dict_get "email" u = Some (JStr email) ->
  exists u', find_user_by_email email users = Some u'.
Proof.
  induction users as [|v users IH]; intros Hin He.
  - now apply elem_of_nil in Hin.
  - simpl. destruct (email_is email v) eqn:E; [eauto|].
    apply elem_of_cons in Hin as [->|Hin]; [|now apply IH].
    apply email_is_spec in He. congruence.
Qed.

Lemma find_user_by_email_app (email : string) (users more : list (dict json)) :
  find_user_by_email email users = None ->
  find_user_by_email email (users ++ more) = find_user_by_email email more.
Proof.
  induction users as [|v users IH]; simpl; [reflexivity|].
  destruct (email_is email v); [discriminate | exact IH].
Qed.

(** C8 (amended).  [find_user_by_email] compares the query with the stored
    address as it is: an account it returns has the query, character for
    character, as its stored address.  For a stored account with a
    lower-case address and a query equal to it up to letter case, the
    lookup of the lower-cased query, which is what [signup] and [login]
    pass, returns an account with that address, and that very account
    when no other has the address. *)
Theorem find_user_by_email_exact (users : list (dict json)) (u : dict json)
  (e q : string) :
  u ∈ users ->
  dict_get "email" u = Some (JStr e) ->
  Py.lower q = e ->
  (exists u' : dict json,
     find_user_by_email (Py.lower q) users = Some u' /\
     u' ∈ users /\
     dict_get "email" u' = Some (JStr e) /\
     ((forall v, v ∈ users -> dict_get "email" v = Some (JStr e) -> v = u) ->
      u' = u)) /\
  (forall (q' : string) (u' : dict json),
     find_user_by_email q' users = Some u' ->
     dict_get "email" u' = Some (JStr q')).
Proof.
  intros Hin He Hq. split.
  - rewrite Hq. destruct (find_user_by_email_found e users u Hin He) as [u' Hu'].
    exists u'. destruct (find_user_by_email_some _ _ _ Hu') as [Hin' He'].
    repeat split; try assumption. intros Huniq. now apply Huniq.
  - intros q' u' Hu'. now apply find_user_by_email_some in Hu'.
Qed.

(** C8 as stated fails: a query in another letter case than the stored
    address finds nothing. *)
Lemma find_user_by_email_other_case :
  Py.lower "A@B.com" = "a@b.com" /\
  dict_get "email" example_account = Some (JStr "a@b.com") /\
  find_user_by_email "A@B.com" [example_account] = None /\
  find_user_by_email "a@b.com" [example_account] = Some example_account.
Proof. repeat split. Qed.

Section Auth.

Context `{H : Host}.

(** C7.  After a registration through [signup], the lookup [login] makes
    for the same address in any letter case finds the account just
    appended; with the matching password [login] puts that account in the
    session. *)
Theorem signup_then_login_any_case (env : Env) (form : MultiDict) (w : World)
  (q : string) :
  (signup env form w).1 = Redirect "dashboard" ->
  Py.lower q = Py.lower (form_get "email" "" form) ->
  let w' := (signup env form w).2 in
  let name := Py.strip (form_get "name" "" form) in
  let email := Py.lower (Py.strip (form_get "email" "" form)) in
  let pwd_hash := generate_password_hash (default "" (form_get_opt "password" form)) in
  let account := [("id", JStr (uuid_user env)); ("name", JStr name);
                  ("email", JStr email); ("password", JStr pwd_hash);
                  ("created_at", JStr (utcnow env +:+ "Z"))] in
  let user := {| su_id := uuid_user env; su_name := name; su_email := email |} in
  users_file w' = (users_file w ++ [account])%list /\
  find_user_by_email (Py.lower (Py.strip q)) (users_file w') = Some account /\
  sess_user (session w') = Some user /\
  (forall (login_form : MultiDict) (p : string),
     form_get "email" "" login_form = q ->
     form_get_opt "password" login_form = Some p ->
     check_password_hash pwd_hash p = true ->
     (login login_form w').1 = Redirect "dashboard" /\
     sess_user (session (login login_form w').2) = Some user).
Proof.
  intros Hdone Hq w' name email pwd_hash account user.
  assert (Hq' : Py.lower (Py.strip q) = email)
    by (subst email; now apply lower_strip_same_case).
  unfold signup in *. fold name email in w', Hdone.
  destruct (negb _); [discriminate Hdone|].
  destruct (negb (bool_decide _)); [discriminate Hdone|].
  destruct (find_user_by_email email (users_file w)) eqn:Hfree; [discriminate Hdone|].
  assert (Hfind : find_user_by_email (Py.lower (Py.strip q)) (users_file w')
                  = Some account).
  { subst w'. cbn [add_user snd fst]. cbn. rewrite Hq'.
    rewrite find_user_by_email_app by exact Hfree.
    unfold find_user_by_email, email_is. cbn [dict_get String.eqb Ascii.eqb Bool.eqb].
    now rewrite String.eqb_refl. }
  split; [reflexivity|]. split; [exact Hfind|]. split; [reflexivity|].
  intros login_form p He Hp Hcheck.
  unfold login. rewrite He, Hfind, Hp.
  change (user_field "password" account) with (Some pwd_hash).
  change (user_field "id" account) with (Some (uuid_user env)).
  change (user_field "name" account) with (Some name).
  change (user_field "email" account) with (Some email).
  change (default "" (Some pwd_hash)) with pwd_hash.
  rewrite Hcheck. split; reflexivity.
Qed.

End Auth.

(** ** The views on concrete requests *)

(** C2.  On a submission naming [template9], [generate] answers with the
    rejection (redirect to the dashboard, "Invalid template selected.")
    only after it has written the resume document and put its path in the
    session. *)
Theorem invalid_template_rejected_after_store :
  let run := generate (H := example_host) (example_env true) template9_form None
               example_world in
  let handle := "/srv/app/data/resumes/u1_0c.json" in
  (form_get "template" "template1" template9_form ∉ TEMPLATE_NAMES) /\
  run.1 = Redirect "dashboard" /\
  sess_flashes (session run.2) = [("Invalid template selected.", "error")] /\
  resume_files example_world !! handle = None /\
  is_Some (resume_files run.2 !! handle) /\
  sess_last_resume_file (session example_world) = None /\
  sess_last_resume_file (session run.2) = Some handle.
Proof.
  cbv zeta. split; [now apply str_in_false|].
  split; [reflexivity|]. split; [reflexivity|]. split; [reflexivity|].
  split; [|split; reflexivity].
  eexists. apply (proj1 (generate_store_persists (H := example_host)
                           (example_env true) template9_form example_user _ _ eq_refl)).
Qed.

(** The round trip on [example_form], sent without a photo. *)
Lemma resume_roundtrip_witness :
  sess_user (session example_world) = Some example_user /\
  resume_write_ok (example_env true) = true /\
  sess_last_resume_file
    (session (generate (H := example_host) (example_env true) example_form None
                example_world).2)
  = Some "/srv/app/data/resumes/u1_0c.json" /\
  forall v : json,
    dict_get "skills"
      (dict_set "photo_exists" (JBool false)
         (assemble_fields (example_env true) example_form)) = Some v ->
    dict_get "skills"
      (normalized_data
         (dict_set "photo_exists" (JBool false)
            (assemble_fields (example_env true) example_form))) = Some v.
Proof.
  pose proof (resume_roundtrip (H := example_host) (example_env true) example_form
                None example_world example_world example_user
                (dict_set "photo_exists" (JBool false)
                   (assemble_fields (example_env true) example_form))
                "template2" eq_refl eq_refl eq_refl) as (_ & Hlast & _ & Hsame & _).
  split; [reflexivity|]. split; [reflexivity|]. split; [exact Hlast|].
  intros v. apply Hsame. unfold RESUME_FIELDS. set_solver.
Defined.

(** A failing save of [example_photo], which passes both checks. *)
Lemma photo_save_failure_witness :
  Py.truthy (fs_filename example_photo) = true /\
  photo_rejection (secure_filename (Host := example_host) (fs_filename example_photo))
    (fs_mimetype example_photo) (fs_size example_photo) = None /\
  photo_save_ok (example_env false) = false /\
  sess_last_resume_file
    (session (generate (H := example_host) (example_env false) example_form
                (Some example_photo) example_world).2)
  = Some "/srv/app/data/resumes/u1_0c.json".
Proof.
  pose proof (photo_save_failure_keeps_resume (H := example_host) (example_env false)
                example_form example_photo example_world example_user
                eq_refl eq_refl eq_refl eq_refl eq_refl) as (_ & Hlast & _).
  split; [reflexivity|]. split; [reflexivity|]. split; [reflexivity|]. exact Hlast.
Defined.

(** Registering [A@B.com], then looking up [a@b.com]. *)
Lemma signup_then_login_witness :
  (signup (H := example_host) (example_env true) signup_form fresh_world).1
  = Redirect "dashboard" /\
  Py.lower "a@b.com" = Py.lower (form_get "email" "" signup_form) /\
  find_user_by_email (Py.lower (Py.strip "a@b.com"))
    (users_file (signup (H := example_host) (example_env true) signup_form
                   fresh_world).2)
  = Some example_account.
Proof.
  pose proof (signup_then_login_any_case (H := example_host) (example_env true)
                signup_form fresh_world "a@b.com" eq_refl eq_refl)
    as (_ & Hfind & _).
  split; [reflexivity|]. split; [reflexivity|]. exact Hfind.
Defined.

(** The lower-cased query finds the account stored as [a@b.com]. *)
Lemma find_user_by_email_exact_witness :
  example_account ∈ [example_account] /\
  Py.lower "A@B.com" = "a@b.com" /\
  exists u' : dict json,
    find_user_by_email (Py.lower "A@B.com") [example_account] = Some u' /\
    dict_get "email" u' = Some (JStr "a@b.com").
Proof.
  assert (Hin : example_account ∈ [example_account]) by (apply elem_of_cons; now left).
  destruct (find_user_by_email_exact [example_account] example_account
              "a@b.com" "A@B.com" Hin eq_refl eq_refl)
    as [(u' & Hfind & _ & He & _) _].
  split; [exact Hin|]. split; [reflexivity|]. exists u'. now split.
Defined.

(** ** The string primitives on sample inputs *)

Example strip_sample : Py.strip "  Go  " = "Go".
Proof. reflexivity. Qed.

Example split_sample :
  Py.split "," "Go, Rust, , Python" = ["Go"; " Rust"; " "; " Python"].
Proof. reflexivity. Qed.

Example replace_sample : Py.replace "&lt;br&gt;" "<br>" "a&lt;br&gt;b" = "a<br>b".
Proof. reflexivity. Qed.

Example suffix_samples :
  Py.suffix "me.photo.PNG" = ".PNG" /\ Py.suffix ".png" = "" /\
  Py.suffix "a/b.jpg/" = ".jpg" /\ Py.suffix "archive." = "".
Proof. repeat split. Qed.

Example initials_sample : initials_str "  ada   lovelace x" = "AL".
Proof. reflexivity. Qed.

Example render_html_sample : render_html "a<br>b<i>" = "a<br>b&lt;i&gt;".
Proof. reflexivity. Qed.

Example template_names_sample : TEMPLATE_NAMES = ENDPOINTS.
Proof. reflexivity. Qed.

(** * Further properties of the code *)

(** ** The sanitizer *)

Lemma length_append (a b : string) :
  String.length (a +:+ b) = (String.length a + String.length b)%nat.
Proof.
  induction a as [|x a IH]; [reflexivity|].
  rewrite append_cons. simpl. now rewrite IH.
Qed.

Lemma expand_ext (f g : ascii -> string) (s : string) :
  (forall c, f c = g c) -> Py.expand f s = Py.expand g s.
Proof.
  intros Hfg. induction s as [|a s IH]; [reflexivity|].
  cbn [Py.expand]. now rewrite Hfg, IH.
Qed.

Lemma has_char_expand (c : ascii) (f : ascii -> string) (s : string) :
  (forall a, Py.has_char c (f a) = false) -> Py.has_char c (Py.expand f s) = false.
Proof.
  intros Hf. induction s as [|a s IH]; [reflexivity|].
  cbn [Py.expand]. now rewrite has_char_append, Hf, IH.
Qed.

Lemma escape_char_length (a : ascii) :
  (1 <= String.length (escape_char a) <= 6)%nat /\
  (String.length (escape_char a) = 1%nat <-> needs_escape a = false).
Proof.
  destruct a as [[] [] [] [] [] [] [] []]; cbv; repeat split; intros; try lia;
    try reflexivity; try discriminate.
Qed.

Lemma escape_char_plain (a : ascii) :
  needs_escape a = false -> escape_char a = String a "".
Proof. destruct a as [[] [] [] [] [] [] [] []]; intros E; try discriminate E; reflexivity. Qed.

(** X1.  The output of [escape_html] holds none of the characters
    [<], [>], double quote and apostrophe, whatever the input. *)
Theorem escape_html_output_safe (s : string) :
  Py.has_char "<" (escape_html s) = false /\
  Py.has_char ">" (escape_html s) = false /\
  Py.has_char dquote (escape_html s) = false /\
  Py.has_char "'" (escape_html s) = false.
Proof.
  rewrite escape_html_expand.
  repeat split; apply has_char_expand; intros a;
    destruct a as [[] [] [] [] [] [] [] []]; reflexivity.
Qed.

(** X2.  [escape_html] works piece by piece: escaping a concatenation
    gives the concatenation of the escaped pieces. *)
Theorem escape_html_append (a b : string) :
  escape_html (a +:+ b) = escape_html a +:+ escape_html b.
Proof. rewrite !escape_html_expand. apply expand_append. Qed.

Lemma expand_escape_length (s : string) :
  (String.length s <= String.length (Py.expand escape_char s) <= 6 * String.length s)%nat /\
  (String.length (Py.expand escape_char s) = String.length s -> plain_text s = true).
Proof.
  induction s as [|a s [IHb IHe]]; [repeat split; simpl; lia|].
  cbn [Py.expand plain_text]. rewrite length_append.
  destruct (escape_char_length a) as [Hb He]. simpl String.length.
  split; [lia|]. intros Hlen.
  assert (Ha : String.length (escape_char a) = 1%nat) by lia.
  apply He in Ha. rewrite Ha. simpl. apply IHe. lia.
Qed.

Lemma expand_escape_plain (s : string) :
  plain_text s = true -> Py.expand escape_char s = s.
Proof.
  induction s as [|a s IH]; [reflexivity|].
  cbn [plain_text Py.expand]. intros Hp. apply andb_prop in Hp as [Ha Hs].
  apply negb_true_iff in Ha. now rewrite (escape_char_plain a Ha), IH.
Qed.

(** X3.  [escape_html] returns a text unchanged exactly when the text
    holds none of the five characters it replaces. *)
Theorem escape_html_fixed_iff_plain (s : string) :
  escape_html s = s <-> plain_text s = true.
Proof.
  rewrite escape_html_expand. split.
  - intros E. apply expand_escape_length. now rewrite E.
  - apply expand_escape_plain.
Qed.

(** X4.  The escaped text is at least as long as the text and at most six
    times as long. *)
Theorem escape_html_length (s : string) :
  (String.length s <= String.length (escape_html s) <= 6 * String.length s)%nat.
Proof. rewrite escape_html_expand. apply expand_escape_length. Qed.

Lemma render_inline_expand (text : string) :
  render_inline text = Py.expand nl_escape text.
Proof.
  unfold render_inline. rewrite escape_html_expand.
  change (String (ascii_of_nat 10) "") with (String newline "").
  rewrite replace_char, expand_expand.
  apply expand_ext. intros c. destruct c as [[] [] [] [] [] [] [] []]; reflexivity.
Qed.

(** X5.  [render_inline] and the [nl2br] filter are the same function:
    both put a break for every line feed and escape every other
    character, so their output holds no line feed and no [<] or [>]
    besides those of the breaks they put. *)
Theorem render_inline_nl2br (text : string) :
  nl2br_filter text = render_inline text /\
  render_inline text = Py.expand nl_escape text /\
  Py.has_char newline (render_inline text) = false /\
  (Py.has_char newline text = false -> render_inline text = escape_html text).
Proof.
  split; [|split; [apply render_inline_expand | split]].
  - unfold nl2br_filter, render_inline. destruct text; reflexivity.
  - rewrite render_inline_expand. apply has_char_expand.
    intros a. destruct a as [[] [] [] [] [] [] [] []]; reflexivity.
  - rewrite render_inline_expand, escape_html_expand.
    induction text as [|a text IH]; [reflexivity|].
    cbn [Py.has_char Py.expand]. intros Hn. apply orb_false_elim in Hn as [Ha Ht].
    rewrite (IH Ht). unfold nl_escape. now rewrite Ha.
Qed.

(** *** The rich renderer *)

Lemma startswith_split (p s : string) :
  Py.startswith p s = true -> exists t, s = p +:+ t.
Proof.
  revert s; induction p as [|a p IH]; intros s Hs; [now exists s|].
  destruct s as [|b s]; [discriminate|]. simpl in Hs.
  apply andb_prop in Hs as [Hab Hps]. apply Ascii.eqb_eq in Hab. subst b.
  destruct (IH s Hps) as [t ->]. now exists t.
Qed.

Lemma startswith_lt_entity (a : ascii) (p X : string) :
  Py.startswith ("&lt;" +:+ p) (escape_char a +:+ X)
  = Ascii.eqb "<" a && Py.startswith p X.
Proof. destruct a as [[] [] [] [] [] [] [] []]; reflexivity. Qed.

Lemma startswith_gt_entity (a : ascii) (p X : string) :
  Py.startswith ("&gt;" +:+ p) (escape_char a +:+ X)
  = Ascii.eqb ">" a && Py.startswith p X.
Proof. destruct a as [[] [] [] [] [] [] [] []]; reflexivity. Qed.

Lemma startswith_b_entity (a : ascii) (p X : string) :
  Py.startswith (String "b" p) (escape_char a +:+ X)
  = Ascii.eqb "b" a && Py.startswith p X.
Proof. destruct a as [[] [] [] [] [] [] [] []]; reflexivity. Qed.

Lemma startswith_r_entity (a : ascii) (p X : string) :
  Py.startswith (String "r" p) (escape_char a +:+ X)
  = Ascii.eqb "r" a && Py.startswith p X.
Proof. destruct a as [[] [] [] [] [] [] [] []]; reflexivity. Qed.

(** The escaped text starts with the escaped break exactly when the text
    starts with a break. *)
Lemma startswith_mark_escape (s : string) :
  Py.startswith "&lt;br&gt;" (Py.expand escape_char s) = Py.startswith "<br>" s.
Proof.
  destruct s as [|a1 s]; [reflexivity|].
  change (Py.startswith "<br>" (String a1 s))
    with (Ascii.eqb "<" a1 && Py.startswith "br>" s).
  cbn [Py.expand]. rewrite (startswith_lt_entity a1 "br&gt;"). f_equal.
  destruct s as [|a2 s]; [reflexivity|].
  change (Py.startswith "br>" (String a2 s))
    with (Ascii.eqb "b" a2 && Py.startswith "r>" s).
  cbn [Py.expand]. rewrite (startswith_b_entity a2 "r&gt;"). f_equal.
  destruct s as [|a3 s]; [reflexivity|].
  change (Py.startswith "r>" (String a3 s))
    with (Ascii.eqb "r" a3 && Py.startswith ">" s).
  cbn [Py.expand]. rewrite (startswith_r_entity a3 "&gt;"). f_equal.
  destruct s as [|a4 s]; [reflexivity|].
  change (Py.startswith ">" (String a4 s))
    with (Ascii.eqb ">" a4 && Py.startswith "" s).
  cbn [Py.expand]. now rewrite (startswith_gt_entity a4 "").
Qed.

Lemma replace_mark_at_head (t : string) :
  Py.replace_from "&lt;br&gt;" "<br>" 0 ("&lt;br&gt;" +:+ t)
  = "<br>" +:+ Py.replace_from "&lt;br&gt;" "<br>" 0 t.
Proof. reflexivity. Qed.

(** No occurrence of the escaped break starts inside an entity. *)
Lemma replace_mark_entity (a : ascii) (X : string) :
  Py.startswith "&lt;br&gt;" (escape_char a +:+ X) = false ->
  Py.replace_from "&lt;br&gt;" "<br>" 0 (escape_char a +:+ X)
  = escape_char a +:+ Py.replace_from "&lt;br&gt;" "<br>" 0 X.
Proof.
  destruct a as [[] [] [] [] [] [] [] []]; intros Hs; try reflexivity.
  change (escape_char "<" +:+ X) with (String "&" (String "l" (String "t" (String ";" X))))
    in *.
  cbn [Py.replace_from]. rewrite Hs. reflexivity.
Qed.

Lemma nl_pass_entity (a : ascii) :
  Py.expand (fun c => if Ascii.eqb newline c then "<br>" else String c "")
    (escape_char a)
  = nl_escape a.
Proof. destruct a as [[] [] [] [] [] [] [] []]; reflexivity. Qed.

Lemma render_html_rich_bounded (n : nat) :
  forall s : string,
    (String.length s <= n)%nat ->
    Py.expand (fun c => if Ascii.eqb newline c then "<br>" else String c "")
      (Py.replace_from "&lt;br&gt;" "<br>" 0 (Py.expand escape_char s))
    = rich_from 0 s.
Proof.
  induction n as [|n IH]; intros s Hlen.
  - destruct s; [reflexivity | simpl in Hlen; lia].
  - destruct s as [|c s]; [reflexivity|].
    cbn [rich_from]. destruct (Py.startswith "<br>" (String c s)) eqn:Hm.
    + destruct (startswith_split _ _ Hm) as [t Ht].
      rewrite Ht in Hlen |- *. injection Ht as -> ->.
      change (Py.expand escape_char ("<br>" +:+ t))
        with ("&lt;br&gt;" +:+ Py.expand escape_char t).
      rewrite replace_mark_at_head, expand_append.
      change (rich_from 3 ("br>" +:+ t)) with (rich_from 0 t).
      rewrite IH; [reflexivity|].
      rewrite length_append in Hlen. simpl in Hlen. lia.
    + rewrite <- startswith_mark_escape in Hm. cbn [Py.expand] in Hm |- *.
      rewrite (replace_mark_entity c _ Hm), expand_append, nl_pass_entity.
      rewrite IH; [reflexivity|]. simpl in Hlen. lia.
Qed.

Lemma render_html_rich (text : string) : render_html text = rich_from 0 text.
Proof.
  unfold render_html. destruct text as [|c text]; [reflexivity|].
  cbn [Py.truthy negb]. rewrite escape_html_expand.
  change (String (ascii_of_nat 10) "") with (String newline "").
  rewrite replace_char.
  change (Py.replace "&lt;br&gt;" "<br>" ?x)
    with (Py.replace_from "&lt;br&gt;" "<br>" 0 x).
  now apply (render_html_rich_bounded (String.length (String c text))).
Qed.

Lemma rich_from_no_lt (s : string) :
  Py.has_char "<" s = false -> rich_from 0 s = Py.expand nl_escape s.
Proof.
  induction s as [|c s IH]; [reflexivity|].
  cbn [Py.has_char]. intros Hc. apply orb_false_elim in Hc as [Hc Hs].
  cbn [rich_from Py.startswith Py.expand].
  rewrite Ascii.eqb_sym, Hc. cbn [andb]. now rewrite IH.
Qed.

(** X6.  [render_html] reads the text from the left: a literal [<br>]
    stays a break, a line feed becomes a break, and every other character
    is escaped as by [escape_html].  So a break marker at the head of the
    text is kept and the rest rendered after it, and a text without [<]
    is rendered as by [render_inline]. *)
Theorem render_html_allows_only_breaks (text : string) :
  render_html text = rich_from 0 text /\
  render_html ("<br>" +:+ text) = "<br>" +:+ render_html text /\
  (Py.has_char "<" text = false -> render_html text = render_inline text).
Proof.
  split; [apply render_html_rich|]. split.
  - rewrite !render_html_rich. reflexivity.
  - intros Hlt. rewrite render_html_rich, render_inline_expand.
    now apply rich_from_no_lt.
Qed.

(** ** Initials *)





(** ** File names without an extension *)

Lemma split_from_chars (d : ascii) (sep : string) (s : string) :
  forall (skip : nat) (cur : string),
    Py.has_char d cur = false ->
    Py.has_char d s = false ->
    Forall (fun piece => Py.has_char d piece = false) (Py.split_from sep skip cur s).
Proof.
  induction s as [|a s IH]; intros skip cur Hcur Hs.
  - constructor; [assumption | constructor].
  - cbn [Py.has_char] in Hs. apply orb_false_elim in Hs as [Ha Hs].
    cbn [Py.split_from]. destruct skip; [|now apply IH].
    destruct (Py.startswith sep (String a s)).
    + constructor; [assumption | now apply IH].
    + apply IH; [|assumption].
      rewrite has_char_append, Hcur. simpl. now rewrite Ha.
Qed.

Lemma last_Forall {A} (P : A -> Prop) (l : list A) (d : A) :
  Forall P l -> P d -> P (List.last l d).
Proof.
  induction 1 as [|x l Hx Hl IH]; intros Hd; [assumption|].
  destruct l; [assumption | now apply IH].
Qed.

Lemma Forall_list_filter {A} (P : A -> Prop) (f : A -> bool) (l : list A) :
  Forall P l -> Forall P (List.filter f l).
Proof.
  induction 1 as [|x l Hx Hl IH]; simpl; [constructor|].
  destruct (f x); [now constructor | assumption].
Qed.

Lemma rfind_char_absent (c : ascii) (s : string) :
  Py.has_char c s = false -> Py.rfind_char c s = None.
Proof.
  induction s as [|a s IH]; [reflexivity|]. simpl.
  intros Hs. apply orb_false_elim in Hs as [Ha Hs]. now rewrite IH, Ha.
Qed.

Lemma suffix_without_dot (filename : string) :
  Py.has_char "." filename = false -> Py.suffix filename = "".
Proof.
  intros Hdot. unfold Py.suffix.
  rewrite rfind_char_absent; [reflexivity|].
  unfold Py.path_name.
  apply (last_Forall (fun x => Py.has_char "." x = false)); [|reflexivity].
  apply Forall_list_filter. now apply split_from_chars.
Qed.

(** X8.  A file name without a dot has no extension and is refused by
    [allowed_file], whatever content type is declared. *)
Theorem allowed_file_needs_dot (filename : string) (mimetype : option string) :
  Py.has_char "." filename = false ->
  Py.suffix filename = "" /\ allowed_file filename mimetype = false.
Proof.
  intros Hdot. split; [now apply suffix_without_dot|].
  unfold allowed_file. now rewrite suffix_without_dot.
Qed.

(** A file named [photo], declared as a PNG image. *)
Lemma allowed_file_needs_dot_witness :
  Py.has_char "." "photo" = false /\
  allowed_file "photo" (Some "image/png") = false.
Proof.
  split; [reflexivity|].
  exact (proj2 (allowed_file_needs_dot "photo" (Some "image/png") eq_refl)).
Defined.

(** ** Registration and login *)

Lemma find_user_by_email_none (email : string) (users : list (dict json)) :
  find_user_by_email email users = None -> email ∉ registered_emails users.
Proof.
  induction users as [|u users IH]; intros Hnone Hin.
  - now apply elem_of_nil in Hin.
  - simpl in Hnone. destruct (email_is email u) eqn:E; [discriminate|].
    unfold registered_emails in Hin. cbn [omap list_omap] in Hin.
    fold (omap account_email users) in Hin.
    destruct (account_email u) as [e|] eqn:Hu.
    + apply elem_of_cons in Hin as [->|Hin]; [|now apply IH].
      unfold account_email in Hu. unfold email_is in E.
      destruct (dict_get "email" u) as [[| |e'| |]|]; try discriminate.
      inversion Hu; subst. now rewrite String.eqb_refl in E.
    + now apply IH.
Qed.

Section AuthMore.

Context `{H : Host}.

(** What a registration that went through has checked and done. *)
Lemma signup_success_inv (env : Env) (form : MultiDict) (w : World) :
  let name := Py.strip (form_get "name" "" form) in
  let email := Py.lower (Py.strip (form_get "email" "" form)) in
  let pwd := form_get_opt "password" form in
  let confirm := form_get_opt "confirm_password" form in
  let account := [("id", JStr (uuid_user env)); ("name", JStr name);
                  ("email", JStr email);
                  ("password", JStr (generate_password_hash (default "" pwd)));
                  ("created_at", JStr (utcnow env +:+ "Z"))] in
  (signup env form w).1 = Redirect "dashboard" ->
  Py.truthy name = true /\ Py.truthy email = true /\
  opt_truthy pwd = true /\ opt_truthy confirm = true /\ pwd = confirm /\
  find_user_by_email email (users_file w) = None /\
  (signup env form w).2
  = flash "Account created and logged in." "success"
      (set_user {| su_id := uuid_user env; su_name := name; su_email := email |}
         (save_users (users_file w ++ [account])%list w)).
Proof.
  intros name email pwd confirm account. unfold signup.
  fold name email pwd confirm.
  destruct (Py.truthy name); [|discriminate].
  destruct (Py.truthy email); [|discriminate].
  destruct (opt_truthy pwd); [|discriminate].
  destruct (opt_truthy confirm); [|discriminate].
  cbn [andb negb]. destruct (bool_decide_reflect (pwd = confirm)); [|discriminate].
  cbn [negb].
  destruct (find_user_by_email email (users_file w)); [discriminate|].
  intros _. repeat split; assumption.
Qed.

Lemma signup_outcome (env : Env) (form : MultiDict) (w : World) :
  (signup env form w).1 = Redirect "dashboard" \/
  ((signup env form w).1 = Render "signup.html" [] /\
   users_file (signup env form w).2 = users_file w /\
   sess_user (session (signup env form w).2) = sess_user (session w)).
Proof.
  unfold signup.
  destruct (negb _); [right; repeat split|].
  destruct (negb (bool_decide _)); [right; repeat split|].
  destruct (find_user_by_email _ (users_file w)); [right; repeat split|].
  now left.
Qed.

(** X9.  [signup] registers exactly when the name, the address, the
    password and its confirmation are all non-empty, the two passwords are
    equal and no account is stored under the trimmed, lower-cased
    address; in every other case it answers with the form again and
    leaves the users file and the session user as they were. *)
Theorem signup_registers_iff (env : Env) (form : MultiDict) (w : World) :
  let name := Py.strip (form_get "name" "" form) in
  let email := Py.lower (Py.strip (form_get "email" "" form)) in
  let pwd := form_get_opt "password" form in
  let confirm := form_get_opt "confirm_password" form in
  ((signup env form w).1 = Redirect "dashboard" <->
   Py.truthy name = true /\ Py.truthy email = true /\
   opt_truthy pwd = true /\ opt_truthy confirm = true /\ pwd = confirm /\
   find_user_by_email email (users_file w) = None) /\
  ((signup env form w).1 = Redirect "dashboard" \/
   ((signup env form w).1 = Render "signup.html" [] /\
    users_file (signup env form w).2 = users_file w /\
    sess_user (session (signup env form w).2) = sess_user (session w))).
Proof.
  intros name email pwd confirm. split; [split|].
  - intros Hdone. destruct (signup_success_inv env form w Hdone)
      as (? & ? & ? & ? & ? & ? & _). repeat split; assumption.
  - intros (Hn & He & Hp & Hc & Hpc & Hfree). unfold signup.
    fold name email pwd confirm. rewrite Hn, He, Hp, Hc. cbn [andb negb].
    rewrite bool_decide_true by exact Hpc. cbn [negb]. now rewrite Hfree.
  - apply signup_outcome.
Qed.

(** X10.  [signup] only ever appends to the users file: the accounts that
    were there stay, in place and unchanged, at most one is added, and
    the resume files, the uploads and the resume handle of the session
    are not touched. *)
Theorem signup_appends_only (env : Env) (form : MultiDict) (w : World) :
  let w' := (signup env form w).2 in
  (exists more : list (dict json),
     users_file w' = (users_file w ++ more)%list /\ (length more <= 1)%nat) /\
  resume_files w' = resume_files w /\
  upload_files w' = upload_files w /\
  sess_last_resume_file (session w') = sess_last_resume_file (session w).
Proof.
  unfold signup.
  destruct (negb _);
    [split; [exists []; split; [now rewrite app_nil_r | simpl; lia] | repeat split]|].
  destruct (negb (bool_decide _));
    [split; [exists []; split; [now rewrite app_nil_r | simpl; lia] | repeat split]|].
  destruct (find_user_by_email _ (users_file w));
    [split; [exists []; split; [now rewrite app_nil_r | simpl; lia] | repeat split]|].
  split; [|repeat split].
  eexists [_]. split; [reflexivity | simpl; lia].
Qed.

(** X11.  [signup] keeps the stored addresses pairwise different: when no
    address occurs twice in the users file before a request, none does
    after it. *)
Theorem signup_keeps_emails_unique (env : Env) (form : MultiDict) (w : World) :
  NoDup (registered_emails (users_file w)) ->
  NoDup (registered_emails (users_file (signup env form w).2)).
Proof.
  intros Hnd.
  destruct (signup_outcome env form w) as [Hdone|(_ & Hsame & _)];
    [|now rewrite Hsame].
  destruct (signup_success_inv env form w Hdone) as (_ & _ & _ & _ & _ & Hfree & ->).
  cbn [flash set_user save_users set_session users_file].
  unfold registered_emails. rewrite omap_app. apply NoDup_app.
  split; [exact Hnd|]. split.
  - intros e Hin Hnew. cbn in Hnew. apply elem_of_cons in Hnew as [->|Hnew].
    + now apply find_user_by_email_none in Hfree.
    + now apply elem_of_nil in Hnew.
  - cbn. apply NoDup_singleton.
Qed.

End AuthMore.

Lemma template_route_same_response (template : string) (w1 w2 : World)
  (u1 u2 : SessionUser) :
  sess_user (session w1) = Some u1 ->
  sess_user (session w2) = Some u2 ->
  sess_last_resume_file (session w1) = sess_last_resume_file (session w2) ->
  resume_files w1 = resume_files w2 ->
  (template_route template w1).1 = (template_route template w2).1.
Proof.
  intros Hu1 Hu2 Hl Hf. unfold template_route, login_required.
  rewrite Hu1, Hu2, Hl, Hf.
  destruct (sess_last_resume_file (session w2)) as [p|]; [|reflexivity].
  destruct (negb (Py.truthy p)); [reflexivity|].
  destruct (resume_files w2 !! p) as [[| | | |payload]|]; try reflexivity.
  destruct (dict_get_or "data" (JObj []) payload); try reflexivity.
  destruct (initials _); reflexivity.
Qed.

Section Sessions.

Context `{H : Host}.

Lemma find_user_by_email_last (email : string) (users : list (dict json))
  (account : dict json) :
  find_user_by_email email users = None ->
  dict_get "email" account = Some (JStr email) ->
  find_user_by_email email (users ++ [account]) = Some account.
Proof.
  intros Hfree He. rewrite find_user_by_email_app by exact Hfree.
  simpl. apply email_is_spec in He. now rewrite He.
Qed.

(** X12.  An address that has been registered cannot be registered again
    in any letter case: a later [signup] for it answers with the form,
    adds no account and leaves the session user, and when its other
    fields are in order the message is "E-mail already registered.". *)
Theorem signup_twice_refused (env1 env2 : Env) (form1 form2 : MultiDict) (w : World) :
  (signup env1 form1 w).1 = Redirect "dashboard" ->
  Py.lower (form_get "email" "" form2) = Py.lower (form_get "email" "" form1) ->
  let w1 := (signup env1 form1 w).2 in
  (signup env2 form2 w1).1 = Render "signup.html" [] /\
  users_file (signup env2 form2 w1).2 = users_file w1 /\
  sess_user (session (signup env2 form2 w1).2) = sess_user (session w1) /\
  (Py.truthy (Py.strip (form_get "name" "" form2)) = true ->
   opt_truthy (form_get_opt "password" form2) = true ->
   form_get_opt "password" form2 = form_get_opt "confirm_password" form2 ->
   (signup env2 form2 w1).2 = flash "E-mail already registered." "error" w1).
Proof.
  intros Hdone Hsame w1.
  destruct (signup_success_inv env1 form1 w Hdone)
    as (_ & Hemail & _ & _ & _ & Hfree & Hw1).
  apply lower_strip_same_case in Hsame.
  assert (Hfound : exists account,
             find_user_by_email (Py.lower (Py.strip (form_get "email" "" form2)))
               (users_file w1) = Some account).
  { eexists. subst w1. rewrite Hw1, Hsame.
    cbn [flash set_user save_users set_session users_file].
    now apply find_user_by_email_last. }
  destruct Hfound as [account Hfound].
  destruct (signup_outcome env2 form2 w1) as [Hagain|(Hr & Hu & Hs)].
  - destruct (signup_success_inv env2 form2 w1 Hagain) as (_ & _ & _ & _ & _ & Hnone & _).
    congruence.
  - split; [exact Hr|]. split; [exact Hu|]. split; [exact Hs|].
    intros Hn Hp Hpc. unfold signup.
    rewrite Hn, Hsame, Hemail, Hp, <- Hpc, Hp. cbn [andb negb].
    rewrite bool_decide_true by reflexivity. cbn [negb].
    rewrite <- Hsame, Hfound. reflexivity.
Qed.

(** [login] writes no file and keeps the resume handle. *)
Lemma login_frame (form : MultiDict) (w : World) :
  users_file (login form w).2 = users_file w /\
  resume_files (login form w).2 = resume_files w /\
  upload_files (login form w).2 = upload_files w /\
  sess_last_resume_file (session (login form w).2)
  = sess_last_resume_file (session w).
Proof.
  unfold login.
  destruct (find_user_by_email _ (users_file w)) as [u|]; [|repeat split].
  destruct (form_get_opt "password" form) as [p|]; [|repeat split].
  destruct (check_password_hash _ p); [|repeat split].
  destruct (user_field "id" u), (user_field "name" u), (user_field "email" u);
    repeat split.
Qed.

Lemma login_success (form : MultiDict) (w : World) :
  (login form w).1 = Redirect "dashboard" ->
  exists (u : dict json) (p i n e : string),
    find_user_by_email (Py.lower (Py.strip (form_get "email" "" form)))
      (users_file w) = Some u /\
    form_get_opt "password" form = Some p /\
    check_password_hash (default "" (user_field "password" u)) p = true /\
    user_field "id" u = Some i /\ user_field "name" u = Some n /\
    user_field "email" u = Some e /\
    sess_user (session (login form w).2)
    = Some {| su_id := i; su_name := n; su_email := e |}.
Proof.
  unfold login.
  destruct (find_user_by_email _ (users_file w)) as [u|]; [|discriminate].
  destruct (form_get_opt "password" form) as [p|]; [|discriminate].
  destruct (check_password_hash _ p) eqn:Hcheck; [|discriminate].
  destruct (user_field "id" u) as [i|] eqn:Hi; [|discriminate].
  destruct (user_field "name" u) as [n|] eqn:Hn; [|discriminate].
  destruct (user_field "email" u) as [e|] eqn:He; [|discriminate].
  intros _. exists u, p, i, n, e. repeat split; assumption.
Qed.

(** X13.  [login] lets a caller in only for an account of the users file
    stored under the trimmed, lower-cased address of the form and only
    when the password check against the stored hash passes; the session
    user then carries that account's id and name and that address. *)
Theorem login_only_with_stored_account (form : MultiDict) (w : World) :
  (login form w).1 = Redirect "dashboard" ->
  let email := Py.lower (Py.strip (form_get "email" "" form)) in
  exists (u : dict json) (p i n : string),
    u ∈ users_file w /\
    dict_get "email" u = Some (JStr email) /\
    dict_get "id" u = Some (JStr i) /\
    dict_get "name" u = Some (JStr n) /\
    form_get_opt "password" form = Some p /\
    check_password_hash (default "" (user_field "password" u)) p = true /\
    sess_user (session (login form w).2)
    = Some {| su_id := i; su_name := n; su_email := email |}.
Proof.
  intros Hin email.
  destruct (login_success form w Hin)
    as (u & p & i & n & e & Hfind & Hp & Hcheck & Hi & Hn & He & Hs).
  destruct (find_user_by_email_some _ _ _ Hfind) as [Hu Hemail].
  fold email in Hemail.
  assert (e = email) as ->.
  { unfold user_field in He. rewrite Hemail in He. now inversion He. }
  exists u, p, i, n. unfold user_field in Hi, Hn.
  destruct (dict_get "id" u) as [[| |i'| |]|]; try discriminate.
  destruct (dict_get "name" u) as [[| |n'| |]|]; try discriminate.
  inversion Hi; inversion Hn; subst. repeat split; assumption.
Qed.

(** X14.  [login] never writes a file and keeps the resume handle.  An
    attempt that does not get in, whether the address is unknown or the
    password is wrong, gets one and the same answer: the login form with
    "Invalid credentials.", the session user left as it was. *)
Theorem login_refusal_uniform (form : MultiDict) (w : World) :
  let email := Py.lower (Py.strip (form_get "email" "" form)) in
  let refused := (Render "login.html" [], flash "Invalid credentials." "error" w) in
  users_file (login form w).2 = users_file w /\
  resume_files (login form w).2 = resume_files w /\
  upload_files (login form w).2 = upload_files w /\
  sess_last_resume_file (session (login form w).2)
  = sess_last_resume_file (session w) /\
  ((login form w).1 = Redirect "dashboard" \/ (login form w).1 = ServerError \/
   login form w = refused) /\
  (find_user_by_email email (users_file w) = None -> login form w = refused) /\
  (forall (u : dict json) (p : string),
     find_user_by_email email (users_file w) = Some u ->
     form_get_opt "password" form = Some p ->
     check_password_hash (default "" (user_field "password" u)) p = false ->
     login form w = refused).
Proof.
  intros email refused.
  destruct (login_frame form w) as (Hu & Hr & Hup & Hl).
  split; [exact Hu|]. split; [exact Hr|]. split; [exact Hup|]. split; [exact Hl|].
  unfold login. fold email. split; [|split].
  - destruct (find_user_by_email email (users_file w)) as [u|]; [|now right; right].
    destruct (form_get_opt "password" form) as [p|]; [|now right; left].
    destruct (check_password_hash _ p); [|now right; right].
    destruct (user_field "id" u), (user_field "name" u), (user_field "email" u);
      first [now left | now right; left].
  - now intros ->.
  - intros u p -> -> ->. reflexivity.
Qed.

(** X15.  [logout] removes the user from the session and nothing else:
    the files and the resume handle stay.  Every view behind
    [login_required] then sends the caller to the login page, and
    [generate] writes nothing. *)
Theorem logout_locks_views (env : Env) (form : MultiDict)
  (photo : option FileStorage) (template : string) (w : World) :
  let w1 := (logout w).2 in
  (logout w).1 = Redirect "home" /\
  sess_user (session w1) = None /\
  sess_last_resume_file (session w1) = sess_last_resume_file (session w) /\
  users_file w1 = users_file w /\
  resume_files w1 = resume_files w /\
  upload_files w1 = upload_files w /\
  (generate env form photo w1).1 = Redirect "login" /\
  resume_files (generate env form photo w1).2 = resume_files w /\
  upload_files (generate env form photo w1).2 = upload_files w /\
  sess_last_resume_file (session (generate env form photo w1).2)
  = sess_last_resume_file (session w) /\
  (template_route template w1).1 = Redirect "login" /\
  (dashboard w1).1 = Redirect "login" /\
  (download_resume_json w1).1 = Instead (Redirect "login").
Proof. repeat split. Qed.

(** X16.  The resume handle of a session is not tied to the account: it
    outlives [logout], and after a [login] by any account the template
    views answer as they did before for the account that built the
    resume. *)
Theorem handle_survives_relogin (form : MultiDict) (template : string)
  (w : World) (user : SessionUser) :
  sess_user (session w) = Some user ->
  (login form (logout w).2).1 = Redirect "dashboard" ->
  let w2 := (login form (logout w).2).2 in
  sess_last_resume_file (session w2) = sess_last_resume_file (session w) /\
  resume_files w2 = resume_files w /\
  (template_route template w2).1 = (template_route template w).1.
Proof.
  intros Huser Hin w2.
  destruct (login_frame form (logout w).2) as (_ & Hr & _ & Hl).
  destruct (login_success _ _ Hin) as (u & p & i & n & e & _ & _ & _ & _ & _ & _ & Hs).
  fold w2 in Hr, Hl, Hs.
  split; [exact Hl|]. split; [exact Hr|].
  eapply template_route_same_response; [exact Hs | exact Huser | exact Hl | exact Hr].
Qed.

End Sessions.

(** ** What [generate] writes and what it leaves *)

Section GenerateMore.

Context `{H : Host}.

(** The four ways through the photo block. *)
Lemma generate_photo_cases (env : Env) (photo : option FileStorage)
  (fields : dict json) (w : World) :
  (exists (f : FileStorage) (message : string),
     photo = Some f /\ Py.truthy (fs_filename f) = true /\
     photo_rejection (secure_filename (fs_filename f)) (fs_mimetype f) (fs_size f)
     = Some message /\
     generate_photo env photo fields w
     = inl (Redirect "dashboard", flash message "error" w)) \/
  generate_photo env photo fields w
  = inr (dict_set "photo_exists" (JBool false) fields, w) \/
  (photo_save_ok env = false /\
   generate_photo env photo fields w
   = inr (dict_set "photo_exists" (JBool false) fields,
          flash "Error saving photo. Please try again." "error" w)) \/
  (exists (f : FileStorage) (ext : string),
     photo = Some f /\ ext ∈ ALLOWED_EXT /\
     ext = Py.lower (Py.suffix (secure_filename (fs_filename f))) /\
     generate_photo env photo fields w
     = inr (dict_set "photo_exists" (JBool true)
              (dict_set "photo" (JStr ("/static/uploads/" +:+ uuid_photo env +:+ ext))
                 fields),
            write_upload (UPLOAD_FOLDER +:+ "/" +:+ uuid_photo env +:+ ext) f w)).
Proof.
  unfold generate_photo. destruct photo as [f|]; [|now right; left].
  destruct (Py.truthy (fs_filename f)) eqn:Hnamed; [|now right; left].
  destruct (photo_rejection _ _ _) as [message|] eqn:Hrej.
  - left. exists f, message. now repeat split.
  - destruct (photo_save_ok env) eqn:Hsave; [|right; right; left; now split].
    right; right; right. eexists f, _. repeat split.
    unfold photo_rejection in Hrej.
    destruct (allowed_file _ _) eqn:Hallowed; [|discriminate].
    apply allowed_file_spec in Hallowed. apply Hallowed.
Qed.

(** The three ways through the store block. *)
Lemma generate_store_cases (env : Env) (form : MultiDict) (user : SessionUser)
  (data : dict json) (w : World) :
  let handle := resume_path (su_id user) (uuid_resume env) in
  let stored :=
    set_last_resume_file handle
      (write_resume handle
         (JObj [("id", JStr (uuid_resume env)); ("user_id", JStr (su_id user));
                ("data", JObj data)]) w) in
  let tmpl := form_get "template" "template1" form in
  (resume_write_ok env = false /\
   generate_store env form user data w
   = (Redirect "dashboard",
      flash "Error generating resume. Please try again." "error" w)) \/
  (resume_write_ok env = true /\ tmpl ∈ TEMPLATE_NAMES /\
   generate_store env form user data w = (Redirect tmpl, stored)) \/
  (resume_write_ok env = true /\ (tmpl ∉ TEMPLATE_NAMES) /\
   generate_store env form user data w
   = (Redirect "dashboard", flash "Invalid template selected." "error" stored)).
Proof.
  intros handle stored tmpl. unfold generate_store. fold handle tmpl.
  destruct (resume_write_ok env); [|now left].
  destruct (str_in tmpl TEMPLATE_NAMES) eqn:Ht.
  - right; left. apply str_in_spec in Ht. now repeat split.
  - right; right. apply str_in_false in Ht. now repeat split.
Qed.

Lemma generate_logged_in (env : Env) (form : MultiDict) (photo : option FileStorage)
  (w : World) (user : SessionUser) :
  sess_user (session w) = Some user ->
  generate env form photo w
  = match generate_photo env photo (assemble_fields env form) w with
    | inl early => early
    | inr (data, w1) => generate_store env form user data w1
    end.
Proof. intros Hu. unfold generate, login_required. now rewrite Hu. Qed.

(** X17.  An upload that fails a check stops [generate] before anything
    is written: the answer is a redirect to the dashboard and the only
    change is the flashed reason; no resume file, no upload file, no new
    handle. *)
Theorem rejected_upload_writes_nothing (env : Env) (form : MultiDict)
  (photo_file : FileStorage) (w : World) (user : SessionUser) (message : string) :
  sess_user (session w) = Some user ->
  Py.truthy (fs_filename photo_file) = true ->
  photo_rejection (secure_filename (fs_filename photo_file))
    (fs_mimetype photo_file) (fs_size photo_file) = Some message ->
  generate env form (Some photo_file) w
  = (Redirect "dashboard", flash message "error" w) /\
  resume_files (generate env form (Some photo_file) w).2 = resume_files w /\
  upload_files (generate env form (Some photo_file) w).2 = upload_files w /\
  sess_last_resume_file (session (generate env form (Some photo_file) w).2)
  = sess_last_resume_file (session w).
Proof.
  intros Hu Hnamed Hrej.
  assert (Hgen : generate env form (Some photo_file) w
                 = (Redirect "dashboard", flash message "error" w)).
  { rewrite (generate_logged_in _ _ _ _ _ Hu). unfold generate_photo.
    now rewrite Hnamed, Hrej. }
  rewrite Hgen. repeat split.
Qed.

(** X18.  Whatever the request, [generate] leaves the users file and the
    session user alone, changes no resume file other than the one at the
    new handle, writes at most one upload, placed in the upload folder
    under the fresh identifier followed by one of the three allowed
    extensions, and only adds to the flashed messages. *)
Theorem generate_frame (env : Env) (form : MultiDict) (photo : option FileStorage)
  (w : World) :
  let w' := (generate env form photo w).2 in
  users_file w' = users_file w /\
  sess_user (session w') = sess_user (session w) /\
  (forall p : string,
     (forall user, sess_user (session w) = Some user ->
                   p <> resume_path (su_id user) (uuid_resume env)) ->
     resume_files w' !! p = resume_files w !! p) /\
  (upload_files w' = upload_files w \/
   exists (f : FileStorage) (ext : string),
     photo = Some f /\ ext ∈ [".png"; ".jpg"; ".jpeg"] /\
     upload_files w'
     = <[UPLOAD_FOLDER +:+ "/" +:+ uuid_photo env +:+ ext := f]> (upload_files w)) /\
  (exists more, sess_flashes (session w')
                = (sess_flashes (session w) ++ more)%list).
Proof.
  intros w'. subst w'.
  destruct (sess_user (session w)) as [user|] eqn:Hu.
  2:{ unfold generate, login_required. rewrite Hu. cbn.
      repeat split; [assumption | now left | eauto]. }
  rewrite (generate_logged_in _ _ _ _ _ Hu).
  destruct (generate_photo_cases env photo (assemble_fields env form) w)
    as [(f & m & _ & _ & _ & ->)|[->|[[_ ->]|(f & ext & Hf & Hext & _ & ->)]]].
  - cbn. repeat split; [assumption | now left | eauto].
  - destruct (generate_store_cases env form user
                (dict_set "photo_exists" (JBool false) (assemble_fields env form)) w)
      as [[_ ->]|[(_ & _ & ->)|(_ & _ & ->)]]; cbn -[resume_path];
      (split; [reflexivity|]; split; [assumption|]; split;
       [intros p Hp; try reflexivity;
        apply lookup_insert_ne; apply not_eq_sym; now apply Hp
       | split; [now left|]]).
    + eauto.
    + exists []. now rewrite app_nil_r.
    + eauto.
  - destruct (generate_store_cases env form user
                (dict_set "photo_exists" (JBool false) (assemble_fields env form))
                (flash "Error saving photo. Please try again." "error" w))
      as [[_ ->]|[(_ & _ & ->)|(_ & _ & ->)]]; cbn -[resume_path];
      (split; [reflexivity|]; split; [assumption|]; split;
       [intros p Hp; try reflexivity;
        apply lookup_insert_ne; apply not_eq_sym; now apply Hp
       | split; [now left|]]).
    + rewrite <- app_assoc. eauto.
    + eauto.
    + rewrite <- app_assoc. eauto.
  - destruct (generate_store_cases env form user
                (dict_set "photo_exists" (JBool true)
                   (dict_set "photo"
                      (JStr ("/static/uploads/" +:+ uuid_photo env +:+ ext))
                      (assemble_fields env form)))
                (write_upload (UPLOAD_FOLDER +:+ "/" +:+ uuid_photo env +:+ ext) f w))
      as [[_ ->]|[(_ & _ & ->)|(_ & _ & ->)]]; cbn -[resume_path];
      (split; [reflexivity|]; split; [assumption|]; split;
       [intros p Hp; try reflexivity;
        apply lookup_insert_ne; apply not_eq_sym; now apply Hp
       | split; [right; exists f, ext; now repeat split|]]).
    + eauto.
    + exists []. now rewrite app_nil_r.
    + eauto.
Qed.

End GenerateMore.

Section GenerateOutcomes.

Context `{H : Host}.

(** X19.  In the data [generate] goes on to store, [photo_exists] is
    always there and is true exactly when there is a [photo] entry; that
    entry is the upload path made of the fresh identifier and one of the
    three allowed extensions, nothing else of the client's file name, and
    the file has been written under the same name in the upload folder. *)
Theorem photo_entry_invariant (env : Env) (form : MultiDict)
  (photo : option FileStorage) (w w1 : World) (data : dict json) :
  generate_photo env photo (assemble_fields env form) w = inr (data, w1) ->
  (exists b : bool,
     dict_get "photo_exists" data = Some (JBool b) /\
     (b = true <-> is_Some (dict_get "photo" data))) /\
  (forall v : json,
     dict_get "photo" data = Some v ->
     exists (f : FileStorage) (ext : string),
       photo = Some f /\ ext ∈ [".png"; ".jpg"; ".jpeg"] /\
       v = JStr ("/static/uploads/" +:+ uuid_photo env +:+ ext) /\
       upload_files w1 !! (UPLOAD_FOLDER +:+ "/" +:+ uuid_photo env +:+ ext) = Some f).
Proof.
  intros Hgen.
  destruct (generate_photo_cases env photo (assemble_fields env form) w)
    as [(f & m & _ & _ & _ & E)|[E|[[_ E]|(f & ext & Hf & Hext & _ & E)]]];
    rewrite E in Hgen; inversion Hgen; subst; clear Hgen E;
    rewrite assemble_fields_eq.
  - split.
    + exists false. split; [reflexivity|].
      split; [discriminate | intros [v Hv]; discriminate Hv].
    + intros v Hv. discriminate Hv.
  - split.
    + exists false. split; [reflexivity|].
      split; [discriminate | intros [v Hv]; discriminate Hv].
    + intros v Hv. discriminate Hv.
  - split.
    + exists true. split; [reflexivity|]. split; [eexists; reflexivity | reflexivity].
    + intros v Hv. exists f, ext.
      change (Some (JStr ("/static/uploads/" +:+ uuid_photo env +:+ ext)) = Some v)
        in Hv.
      inversion Hv; subst.
      repeat split; [assumption|]. cbn. apply lookup_insert_eq.
Qed.

(** X20.  [generate] always answers with a redirect: to the login page,
    to the dashboard, or to one of the eight registered template
    endpoints; and when it redirects to a template, that template view
    finds the stored resume and renders it. *)
Theorem generate_redirect_targets (env : Env) (form : MultiDict)
  (photo : option FileStorage) (w : World) :
  (exists target : string,
     (generate env form photo w).1 = Redirect target /\
     (target = "login" \/ target = "dashboard" \/ target ∈ ENDPOINTS)) /\
  (forall t : string,
     (generate env form photo w).1 = Redirect t ->
     t ∈ ENDPOINTS ->
     exists context,
       template_route t (generate env form photo w).2
       = (Render (t +:+ ".html") context, (generate env form photo w).2)).
Proof.
  destruct (sess_user (session w)) as [user|] eqn:Hu.
  2:{ unfold generate, login_required. rewrite Hu. cbn. split; [eauto|].
      intros t Ht Hin. inversion Ht; subst. exfalso. revert Hin.
      now apply str_in_false. }
  rewrite (generate_logged_in _ _ _ _ _ Hu).
  destruct (generate_photo env photo (assemble_fields env form) w)
    as [[r w0]|[data w1]] eqn:Hphoto.
  { destruct (generate_photo_cases env photo (assemble_fields env form) w)
      as [(f & m & _ & _ & _ & E)|[E|[[_ E]|(f & ext & _ & _ & _ & E)]]];
      rewrite E in Hphoto; inversion Hphoto; subst. cbn. split; [eauto|].
    intros t Ht Hin. inversion Ht; subst. exfalso. revert Hin.
    now apply str_in_false. }
  destruct (generate_photo_inr _ _ _ _ _ _ Hphoto) as (Hu1 & _ & Hdata).
  assert (Hname : dict_get "name" data
                  = Some (JStr (Py.strip (form_get "name" "" form)))).
  { rewrite assemble_fields_eq in Hdata. destruct Hdata as [->|[p ->]]; reflexivity. }
  destruct (generate_store_cases env form user data w1)
    as [[_ E]|[(Hok & Hin & E)|(_ & _ & E)]]; rewrite E; cbn -[resume_path].
  - split; [eauto|]. intros t Ht Ht'. inversion Ht; subst. exfalso. revert Ht'.
    now apply str_in_false.
  - split; [eauto 6|]. intros t Ht _. inversion Ht; subst t. eexists.
    eapply template_route_renders.
    + cbn. rewrite Hu1. exact Hu.
    + reflexivity.
    + apply resume_path_truthy.
    + cbn -[resume_path]. apply lookup_insert_eq.
    + reflexivity.
    + exact Hname.
  - split; [eauto|]. intros t Ht Ht'. inversion Ht; subst. exfalso. revert Ht'.
    now apply str_in_false.
Qed.

(** X21.  When the resume document cannot be written, [generate] answers
    with a redirect to the dashboard, stores no resume and leaves the
    handle of the session; past the photo block the only trace is the
    flashed "Error generating resume." message. *)
Theorem resume_write_failure (env : Env) (form : MultiDict)
  (photo : option FileStorage) (w : World) (user : SessionUser) :
  sess_user (session w) = Some user ->
  resume_write_ok env = false ->
  (generate env form photo w).1 = Redirect "dashboard" /\
  resume_files (generate env form photo w).2 = resume_files w /\
  sess_last_resume_file (session (generate env form photo w).2)
  = sess_last_resume_file (session w) /\
  (forall (data : dict json) (w1 : World),
     generate_photo env photo (assemble_fields env form) w = inr (data, w1) ->
     (generate env form photo w).2
     = flash "Error generating resume. Please try again." "error" w1).
Proof.
  intros Hu Hfail. rewrite (generate_logged_in _ _ _ _ _ Hu).
  destruct (generate_photo_cases env photo (assemble_fields env form) w)
    as [(f & m & _ & _ & _ & ->)|[->|[[_ ->]|(f & ext & _ & _ & _ & ->)]]];
    unfold generate_store; rewrite ?Hfail; cbn;
    (repeat split; try reflexivity; intros data w1 E; inversion E; reflexivity).
Qed.

End GenerateOutcomes.

(** ** Trimmed text *)

Lemma lstrip_head (s : string) :
  Py.lstrip s = "" \/
  exists c r, Py.lstrip s = String c r /\ Py.is_space c = false.
Proof.
  induction s as [|c s IH]; [now left|]. simpl.
  destruct (Py.is_space c) eqn:E; [exact IH | right; eauto].
Qed.

Lemma rstrip_keeps_head (c : ascii) (r : string) :
  Py.is_space c = false -> exists r', Py.rstrip (String c r) = String c r'.
Proof. intros E. simpl. rewrite E. destruct (Py.rstrip r); eauto. Qed.

Lemma rstrip_idem (s : string) : Py.rstrip (Py.rstrip s) = Py.rstrip s.
Proof.
  induction s as [|c s IH]; [reflexivity|]. simpl.
  destruct (Py.rstrip s) as [|a r] eqn:E.
  - destruct (Py.is_space c) eqn:Ec; [reflexivity|]. simpl. now rewrite Ec.
  - change (Py.rstrip (String c (String a r)))
      with (match Py.rstrip (String a r) with
            | EmptyString => if Py.is_space c then EmptyString else String c EmptyString
            | x => String c x
            end).
    now rewrite IH.
Qed.

Lemma lstrip_blank (s : string) : blank s = true -> Py.lstrip s = "".
Proof.
  induction s as [|c s IH]; [reflexivity|]. simpl.
  intros Hb. apply andb_prop in Hb as [Hc Hs]. rewrite Hc. now apply IH.
Qed.

(** The result of [strip] is left alone by [lstrip] and by [rstrip]. *)
Lemma strip_trimmed (s : string) :
  Py.lstrip (Py.strip s) = Py.strip s /\ Py.rstrip (Py.strip s) = Py.strip s.
Proof.
  unfold Py.strip. split; [|apply rstrip_idem].
  destruct (lstrip_head s) as [->|(c & r & -> & Hc)]; [reflexivity|].
  destruct (rstrip_keeps_head c r Hc) as [r' ->]. simpl. now rewrite Hc.
Qed.

Lemma clean_entries_trimmed (values : list string) :
  Forall (fun e => e <> "" /\ Py.lstrip e = e /\ Py.rstrip e = e)
    (map Py.strip (List.filter (fun s => Py.truthy (Py.strip s)) values)).
Proof.
  induction values as [|v values IH]; simpl; [constructor|].
  destruct (Py.truthy (Py.strip v)) eqn:E; [|exact IH].
  simpl. constructor; [|exact IH].
  split; [intros E'; now rewrite E' in E | apply strip_trimmed].
Qed.

(** X22.  Every text [generate] assembles is trimmed: each of the six
    scalar fields is the form value without leading and trailing white
    space, the empty string when the value is blank or the field is
    missing; the skills and the languages are non-empty trimmed entries,
    the languages being the form's values, trimmed, the empty ones left
    out, in their order. *)
Theorem assembled_text_is_trimmed (env : Env) (form : MultiDict) :
  (forall k : string,
     k ∈ ["name"; "title"; "email"; "phone"; "address"; "summary"] ->
     exists s : string,
       dict_get k (assemble_fields env form) = Some (JStr s) /\
       s = Py.strip (form_get k "" form) /\
       Py.lstrip s = s /\ Py.rstrip s = s /\
       (blank (form_get k "" form) = true -> s = "") /\
       (form_get_opt k form = None -> s = "")) /\
  Forall (fun e => e <> "" /\ Py.lstrip e = e /\ Py.rstrip e = e)
    (parse_skills (form_get "skills" "" form)) /\
  Forall (fun e => e <> "" /\ Py.lstrip e = e /\ Py.rstrip e = e)
    (clean_list (form_getlist "languages[]" form)) /\
  dict_get "languages" (assemble_fields env form)
  = Some (JList (map JStr
       (List.filter Py.truthy (map Py.strip (form_getlist "languages[]" form))))).
Proof.
  split; [|split; [apply clean_entries_trimmed | split; [apply clean_entries_trimmed|]]].
  - intros k Hk. exists (Py.strip (form_get k "" form)).
    rewrite assemble_fields_eq.
    split; [elem_cases Hk; reflexivity|]. split; [reflexivity|].
    destruct (strip_trimmed (form_get k "" form)) as [Hl Hr].
    split; [exact Hl|]. split; [exact Hr|]. split.
    + intros Hb. unfold Py.strip. now rewrite lstrip_blank.
    + intros Hnone. unfold form_get. now rewrite Hnone.
  - rewrite assemble_fields_eq. cbn [dict_get String.eqb Ascii.eqb Bool.eqb].
    unfold clean_list. now rewrite (map_filter_comm Py.strip Py.truthy).
Qed.

(** ** The template views and the download, as readers *)

(** X23.  A template view writes nothing: files, session user and resume
    handle are as before, and for a logged-in caller the whole state is.
    For such a caller it answers 400 exactly when the session has no
    handle or an empty one, or no file is stored under the handle. *)
Theorem template_route_reads_only (template : string) (w : World) :
  let r := template_route template w in
  users_file r.2 = users_file w /\
  resume_files r.2 = resume_files w /\
  upload_files r.2 = upload_files w /\
  sess_user (session r.2) = sess_user (session w) /\
  sess_last_resume_file (session r.2) = sess_last_resume_file (session w) /\
  (forall user : SessionUser,
     sess_user (session w) = Some user ->
     r.2 = w /\
     ((exists description, r.1 = Abort 400 description) <->
      match sess_last_resume_file (session w) with
      | None => True
      | Some handle => handle = "" \/ resume_files w !! handle = None
      end)).
Proof.
  unfold template_route, login_required.
  destruct (sess_user (session w)) as [u|] eqn:Hu; cbn zeta.
  2:{ repeat split; try assumption; congruence. }
  destruct (sess_last_resume_file (session w)) as [handle|] eqn:Hl.
  2:{ repeat split; try assumption; eauto. }
  destruct handle as [|c handle]; cbn [Py.truthy negb].
  { repeat split; try assumption; eauto. }
  destruct (resume_files w !! String c handle) as [doc|] eqn:Hf.
  2:{ repeat split; try assumption; eauto. }
  assert (Hno : ~ (String c handle = "" \/ Some doc = None))
    by (intros [E|E]; discriminate E).
  destruct doc as [| | | |payload];
    try (repeat split; try assumption;
         [intros [d Hd]; discriminate Hd | intros Hc; now apply Hno in Hc]).
  destruct (dict_get_or "data" (JObj []) payload) as [| | | |d];
    try (repeat split; try assumption;
         [intros [d' Hd]; discriminate Hd | intros Hc; now apply Hno in Hc]).
  destruct (initials _);
    (repeat split; try assumption;
     [intros [d' Hd]; discriminate Hd | intros Hc; now apply Hno in Hc]).
Qed.

(** X24.  The template views tolerate a document that lacks members: with
    no [data] member, or with data that has no [name], the page is still
    rendered, the initials are empty and every field the data lacks is
    bound to its default. *)
Theorem template_route_tolerates_missing (template : string) (w : World)
  (user : SessionUser) (handle : string) (payload d : dict json) :
  sess_user (session w) = Some user ->
  sess_last_resume_file (session w) = Some handle ->
  Py.truthy handle = true ->
  resume_files w !! handle = Some (JObj payload) ->
  dict_get_or "data" (JObj []) payload = JObj d ->
  dict_get "name" d = None ->
  template_route template w
  = (Render (template +:+ ".html") (build_context template (normalized_data d) ""),
     w) /\
  (dict_get "data" payload = None -> d = []) /\
  (forall k : string,
     k ∈ RESUME_FIELDS -> dict_get k d = None ->
     dict_get k (normalized_data d) = Some (field_default k)).
Proof.
  intros Hu Hl Ht Hf Hd Hn. split; [|split].
  - unfold template_route, login_required.
    rewrite Hu, Hl, Ht. cbn [negb]. rewrite Hf, Hd.
    replace (dict_get_or "name" JNull (normalized_data d)) with (JStr "");
      [reflexivity|].
    unfold normalized_data, dict_get_or. cbn [dict_get String.eqb Ascii.eqb Bool.eqb].
    now rewrite Hn.
  - intros Hnone. unfold dict_get_or in Hd. rewrite Hnone in Hd. now inversion Hd.
  - intros k Hk Hnone. now rewrite normalized_data_get, Hnone.
Qed.

(** A stored document that has only its two identifiers. *)
Lemma template_route_tolerates_missing_witness :
  let w := {| users_file := [];
              resume_files := {[ "/srv/app/data/resumes/u1_0c.json" :=
                                   JObj [("id", JStr "0c"); ("user_id", JStr "u1")] ]};
              upload_files := ∅;
              session := {| sess_user := Some example_user;
                            sess_last_resume_file :=
                              Some "/srv/app/data/resumes/u1_0c.json";
                            sess_flashes := [] |} |} in
  dict_get "data" [("id", JStr "0c"); ("user_id", JStr "u1")] = None /\
  (template_route "template3" w).1
  = Render "template3.html" (build_context "template3" (normalized_data []) "").
Proof.
  intros w. split; [reflexivity|].
  destruct (template_route_tolerates_missing "template3" w example_user
              "/srv/app/data/resumes/u1_0c.json"
              [("id", JStr "0c"); ("user_id", JStr "u1")] []
              eq_refl eq_refl eq_refl eq_refl eq_refl eq_refl) as [-> _].
  reflexivity.
Defined.

Lemma split_from_single (c : ascii) (s : string) :
  forall cur : string,
    Py.has_char c s = false ->
    Py.split_from (String c "") 0 cur s = [cur +:+ s].
Proof.
  induction s as [|a s IH]; intros cur Hs.
  - simpl. now rewrite append_empty_r.
  - cbn [Py.has_char] in Hs. apply orb_false_elim in Hs as [Ha Hs].
    cbn [Py.split_from Py.startswith]. rewrite Ascii.eqb_sym, Ha. cbn [andb].
    rewrite IH by exact Hs. now rewrite append_assoc.
Qed.

Lemma split_from_last_piece (c : ascii) (n : string) (a : string) :
  forall cur : string,
    Py.has_char c n = false ->
    exists l, Py.split_from (String c "") 0 cur (a +:+ String c n) = (l ++ [n])%list.
Proof.
  induction a as [|x a IH]; intros cur Hn.
  - change ("" +:+ String c n) with (String c n).
    cbn [Py.split_from Py.startswith String.length Nat.sub].
    rewrite Ascii.eqb_refl. cbn [andb].
    rewrite split_from_single by exact Hn. now exists [cur].
  - rewrite append_cons.
    cbn [Py.split_from Py.startswith String.length Nat.sub].
    destruct (Ascii.eqb c x); cbn [andb].
    + destruct (IH "" Hn) as [l ->]. now exists (cur :: l).
    + apply IH, Hn.
Qed.

(** The name of a path that ends in [/n], for a proper component [n]. *)
Lemma path_name_last_component (dir n : string) :
  Py.has_char "/" n = false -> n <> "" -> n <> "." ->
  Py.path_name (dir +:+ String "/" n) = n.
Proof.
  intros Hslash Hne Hnd. unfold Py.path_name, Py.split.
  destruct (split_from_last_piece "/" n dir "" Hslash) as [l ->].
  rewrite List.filter_app. cbn [List.filter].
  apply String.eqb_neq in Hne, Hnd. rewrite Hne, Hnd. cbn [negb andb].
  apply List.last_last.
Qed.

Section Download.

Context `{H : Host}.

(** X25.  [download_resume_json] gives back, unchanged, the document
    [generate] stored under the handle of the session, and changes
    nothing; when the two identifiers hold no [/], the download name is
    [<user id>_<resume id>.json]. *)
Theorem download_returns_stored (env : Env) (form : MultiDict)
  (photo : option FileStorage) (w w1 : World) (user : SessionUser)
  (data : dict json) :
  sess_user (session w) = Some user ->
  generate_photo env photo (assemble_fields env form) w = inr (data, w1) ->
  resume_write_ok env = true ->
  let w' := (generate env form photo w).2 in
  let handle := resume_path (su_id user) (uuid_resume env) in
  download_resume_json w'
  = (Attachment (Py.path_name handle)
       (JObj [("id", JStr (uuid_resume env)); ("user_id", JStr (su_id user));
              ("data", JObj data)]), w') /\
  (Py.has_char "/" (su_id user) = false ->
   Py.has_char "/" (uuid_resume env) = false ->
   Py.path_name handle = su_id user +:+ "_" +:+ uuid_resume env +:+ ".json").
Proof.
  intros Hu Hphoto Hok w' handle. split.
  - assert (Hw' : w' = (generate_store env form user data w1).2).
    { subst w'. rewrite (generate_logged_in _ _ _ _ _ Hu). now rewrite Hphoto. }
    destruct (generate_photo_inr _ _ _ _ _ _ Hphoto) as (Hu1 & _ & _).
    destruct (generate_store_persists env form user data w1 Hok)
      as (Hfile & Hlast & Hu' & _).
    rewrite <- Hw' in Hfile, Hlast, Hu'. fold handle in Hfile, Hlast.
    unfold download_resume_json.
    rewrite Hu', Hu1, Hu, Hlast. subst handle. rewrite resume_path_truthy.
    cbn [negb]. now rewrite Hfile.
  - intros Hs1 Hs2. subst handle. unfold resume_path.
    apply path_name_last_component.
    + rewrite !has_char_append, Hs1, Hs2. reflexivity.
    + intros E. apply (f_equal String.length) in E.
      rewrite !length_append in E. simpl in E. lia.
    + intros E. apply (f_equal String.length) in E.
      rewrite !length_append in E. simpl in E. lia.
Qed.

End Download.

(** ** The users file as a store *)

Lemma find_user_by_email_app_some (email : string) (users more : list (dict json))
  (u : dict json) :
  find_user_by_email email users = Some u ->
  find_user_by_email email (users ++ more) = Some u.
Proof.
  induction users as [|v users IH]; simpl; [discriminate|].
  destruct (email_is email v); [trivial | exact IH].
Qed.

(** X26.  [add_user] appends without looking: after it, the lookup of the
    added address returns the account that was already stored under it,
    if there was one, and the new account otherwise; the lookup of any
    other address is as before.  It returns the fresh identifier. *)
Theorem add_user_then_lookup (env : Env) (name email password_hash : string)
  (w : World) :
  let account := [("id", JStr (uuid_user env)); ("name", JStr name);
                  ("email", JStr email); ("password", JStr password_hash);
                  ("created_at", JStr (utcnow env +:+ "Z"))] in
  let w' := (add_user env name email password_hash w).2 in
  (add_user env name email password_hash w).1 = uuid_user env /\
  users_file w' = (users_file w ++ [account])%list /\
  find_user_by_email email (users_file w')
  = Some (default account (find_user_by_email email (users_file w))) /\
  (forall e : string,
     e <> email ->
     find_user_by_email e (users_file w') = find_user_by_email e (users_file w)).
Proof.
  intros account w'. split; [reflexivity|]. split; [reflexivity|]. split.
  - subst w'. cbn [add_user snd save_users users_file].
    destruct (find_user_by_email email (users_file w)) as [u|] eqn:Hfind.
    + now apply find_user_by_email_app_some.
    + apply find_user_by_email_last; [exact Hfind | reflexivity].
  - intros e Hne. subst w'. cbn [add_user snd save_users users_file].
    destruct (find_user_by_email e (users_file w)) as [u|] eqn:Hfind.
    + now apply find_user_by_email_app_some.
    + rewrite find_user_by_email_app by exact Hfind.
      cbn. apply String.eqb_neq in Hne. rewrite String.eqb_sym in Hne.
      now rewrite Hne.
Qed.

(** ** Escaping loses nothing *)

Lemma needs_escape_cases (a : ascii) :
  needs_escape a = true ->
  a = "&"%char \/ a = "<"%char \/ a = ">"%char \/ a = dquote \/ a = "'"%char.
Proof.
  destruct a as [[] [] [] [] [] [] [] []]; intros E; try discriminate E;
    auto 6.
Qed.

Lemma escape_char_head (a : ascii) (X : string) :
  needs_escape a = true -> exists r, escape_char a +:+ X = String "&" r.
Proof.
  intros E. destruct (needs_escape_cases a E) as [-> | [-> | [-> | [-> | ->]]]];
    eexists; reflexivity.
Qed.

Lemma needs_escape_amp (a : ascii) : needs_escape a = false -> a <> "&"%char.
Proof. intros E ->. discriminate E. Qed.

(** The entities form a code that can be read back in one way only. *)
Lemma escape_char_unique (a b : ascii) (X Y : string) :
  escape_char a +:+ X = escape_char b +:+ Y -> a = b /\ X = Y.
Proof.
  destruct (needs_escape a) eqn:Ea, (needs_escape b) eqn:Eb.
  - destruct (needs_escape_cases a Ea) as [-> | [-> | [-> | [-> | ->]]]];
      destruct (needs_escape_cases b Eb) as [-> | [-> | [-> | [-> | ->]]]];
      intros E; vm_compute in E;
      first [discriminate E | injection E as ->; now split].
  - rewrite (escape_char_plain b Eb). destruct (escape_char_head a X Ea) as [r ->].
    change (String b "" +:+ Y) with (String b Y).
    intros E. injection E as E _. symmetry in E. now apply needs_escape_amp in Eb.
  - rewrite (escape_char_plain a Ea). destruct (escape_char_head b Y Eb) as [r ->].
    change (String a "" +:+ X) with (String a X).
    intros E. injection E as E _. now apply needs_escape_amp in Ea.
  - rewrite (escape_char_plain a Ea), (escape_char_plain b Eb).
    change (String a X = String b Y -> a = b /\ X = Y).
    intros E. injection E as -> ->. now split.
Qed.

Lemma expand_escape_nonempty (a : ascii) (X : string) : escape_char a +:+ X <> "".
Proof.
  destruct (needs_escape a) eqn:Ea.
  - destruct (escape_char_head a X Ea) as [r ->]. discriminate.
  - rewrite (escape_char_plain a Ea). change (String a X <> ""). discriminate.
Qed.

(** X27.  [escape_html] loses nothing: two texts have the same escaped
    form only when they are the same text. *)
Theorem escape_html_injective (s1 s2 : string) :
  escape_html s1 = escape_html s2 <-> s1 = s2.
Proof.
  split; [|now intros ->]. rewrite !escape_html_expand.
  revert s2; induction s1 as [|a s1 IH]; intros [|b s2]; cbn [Py.expand].
  - reflexivity.
  - intros E. symmetry in E. now apply expand_escape_nonempty in E.
  - intros E. now apply expand_escape_nonempty in E.
  - intros E. apply escape_char_unique in E as [-> E]. now rewrite (IH s2 E).
Qed.

(** ** Building a second resume *)

Lemma append_inv_head (a x y : string) : a +:+ x = a +:+ y -> x = y.
Proof.
  induction a as [|c a IH]; [trivial|].
  rewrite !append_cons. intros E. injection E as E. now apply IH.
Qed.

Lemma append_inv_tail (a : string) :
  forall x y : string, x +:+ a = y +:+ a -> x = y.
Proof.
  induction x as [|c x IH]; intros [|d y] E.
  - reflexivity.
  - change ("" +:+ a) with a in E. rewrite append_cons in E.
    apply (f_equal String.length) in E. simpl in E.
    rewrite length_append in E. lia.
  - change ("" +:+ a) with a in E. rewrite append_cons in E.
    apply (f_equal String.length) in E. simpl in E.
    rewrite length_append in E. lia.
  - rewrite !append_cons in E. injection E as -> E. now rewrite (IH y E).
Qed.

Section Regenerate.

Context `{H : Host}.

(** Different resume identifiers give different handles. *)
Lemma resume_path_inj (user_id r1 r2 : string) :
  resume_path user_id r1 = resume_path user_id r2 -> r1 = r2.
Proof.
  unfold resume_path. intros E.
  do 4 apply append_inv_head in E. now apply append_inv_tail in E.
Qed.

Lemma generate_other_resumes (env : Env) (form : MultiDict)
  (photo : option FileStorage) (w : World) (user : SessionUser) (p : string) :
  sess_user (session w) = Some user ->
  p <> resume_path (su_id user) (uuid_resume env) ->
  resume_files (generate env form photo w).2 !! p = resume_files w !! p.
Proof.
  intros Hu Hp. rewrite (generate_logged_in _ _ _ _ _ Hu).
  destruct (generate_photo env photo (assemble_fields env form) w)
    as [[r w0]|[data w1]] eqn:Hphoto.
  - destruct (generate_photo_cases env photo (assemble_fields env form) w)
      as [(f & m & _ & _ & _ & E)|[E|[[_ E]|(f & ext & _ & _ & _ & E)]]];
      rewrite E in Hphoto; inversion Hphoto; subst. reflexivity.
  - destruct (generate_photo_inr _ _ _ _ _ _ Hphoto) as (_ & <- & _).
    destruct (generate_store_cases env form user data w1)
      as [[_ ->]|[(_ & _ & ->)|(_ & _ & ->)]]; cbn -[resume_path];
      try reflexivity; apply lookup_insert_ne; congruence.
Qed.

Lemma generate_keeps_user (env : Env) (form : MultiDict)
  (photo : option FileStorage) (w : World) :
  sess_user (session (generate env form photo w).2) = sess_user (session w).
Proof.
  unfold generate, login_required.
  destruct (sess_user (session w)) as [user|] eqn:Hu; [|exact Hu].
  destruct (generate_photo env photo (assemble_fields env form) w)
    as [[r w0]|[data w1]] eqn:Hphoto.
  - destruct (generate_photo_cases env photo (assemble_fields env form) w)
      as [(f & m & _ & _ & _ & E)|[E|[[_ E]|(f & ext & _ & _ & _ & E)]]];
      rewrite E in Hphoto; inversion Hphoto; subst. exact Hu.
  - destruct (generate_photo_inr _ _ _ _ _ _ Hphoto) as (Hu1 & _ & _).
    destruct (generate_store_cases env form user data w1)
      as [[_ ->]|[(_ & _ & ->)|(_ & _ & ->)]]; cbn -[resume_path]; congruence.
Qed.

Lemma generate_to_template (env : Env) (form : MultiDict)
  (photo : option FileStorage) (w : World) (user : SessionUser) (t : string) :
  sess_user (session w) = Some user ->
  (generate env form photo w).1 = Redirect t ->
  t ∈ ENDPOINTS ->
  sess_last_resume_file (session (generate env form photo w).2)
  = Some (resume_path (su_id user) (uuid_resume env)) /\
  is_Some (resume_files (generate env form photo w).2
           !! resume_path (su_id user) (uuid_resume env)).
Proof.
  intros Hu. rewrite (generate_logged_in _ _ _ _ _ Hu).
  assert (Hdash : "dashboard" ∉ ENDPOINTS) by now apply str_in_false.
  destruct (generate_photo env photo (assemble_fields env form) w)
    as [[r w0]|[data w1]] eqn:Hphoto.
  - destruct (generate_photo_cases env photo (assemble_fields env form) w)
      as [(f & m & _ & _ & _ & E)|[E|[[_ E]|(f & ext & _ & _ & _ & E)]]];
      rewrite E in Hphoto; inversion Hphoto; subst.
    cbn. intros Ht Hin. inversion Ht; subst. contradiction.
  - destruct (generate_store_cases env form user data w1)
      as [[_ ->]|[(_ & _ & ->)|(_ & _ & ->)]]; cbn -[resume_path];
      intros Ht Hin; try (inversion Ht; subst; contradiction).
    split; [reflexivity|]. rewrite lookup_insert_eq. eauto.
Qed.

(** X28.  Building a second resume does not touch the first: after a
    second [generate] in the same session, under another resume
    identifier, the first document is still stored as it was written,
    whatever the second request holds; and when the second request gets
    its redirect to a template, the session points to the second
    document. *)
Theorem regenerate_keeps_first (env1 env2 : Env) (form1 form2 : MultiDict)
  (photo1 photo2 : option FileStorage) (w w1 : World) (user : SessionUser)
  (data : dict json) :
  sess_user (session w) = Some user ->
  generate_photo env1 photo1 (assemble_fields env1 form1) w = inr (data, w1) ->
  resume_write_ok env1 = true ->
  uuid_resume env2 <> uuid_resume env1 ->
  let first := (generate env1 form1 photo1 w).2 in
  let second := generate env2 form2 photo2 first in
  resume_files second.2 !! resume_path (su_id user) (uuid_resume env1)
  = Some (JObj [("id", JStr (uuid_resume env1)); ("user_id", JStr (su_id user));
                ("data", JObj data)]) /\
  (forall t : string,
     second.1 = Redirect t -> t ∈ ENDPOINTS ->
     sess_last_resume_file (session second.2)
     = Some (resume_path (su_id user) (uuid_resume env2)) /\
     is_Some (resume_files second.2 !! resume_path (su_id user) (uuid_resume env2))).
Proof.
  intros Hu Hphoto Hok Hne first second.
  assert (Hu1 : sess_user (session first) = Some user)
    by (subst first; now rewrite generate_keeps_user).
  assert (Hfirst : resume_files first !! resume_path (su_id user) (uuid_resume env1)
                   = Some (JObj [("id", JStr (uuid_resume env1));
                                 ("user_id", JStr (su_id user));
                                 ("data", JObj data)])).
  { subst first. rewrite (generate_logged_in _ _ _ _ _ Hu), Hphoto.
    apply (generate_store_persists env1 form1 user data w1 Hok). }
  split.
  - subst second. rewrite (generate_other_resumes _ _ _ _ user); [exact Hfirst | exact Hu1 |].
    intros E. apply resume_path_inj in E. congruence.
  - intros t Ht Hin. subst second.
    exact (generate_to_template env2 form2 photo2 first user t Hu1 Ht Hin).
Qed.

End Regenerate.

(** ** Letter case of file names *)

Lemma lower_append (a b : string) :
  Py.lower (a +:+ b) = Py.lower a +:+ Py.lower b.
Proof.
  induction a as [|c a IH]; [reflexivity|].
  rewrite append_cons. cbn [Py.lower]. now rewrite IH, append_cons.
Qed.

Lemma lower_char_slash (a : ascii) :
  Ascii.eqb "/" (Py.lower_char a) = Ascii.eqb "/" a.
Proof. destruct a as [[] [] [] [] [] [] [] []]; reflexivity. Qed.

Lemma lower_char_dot (a : ascii) :
  Ascii.eqb (Py.lower_char a) "." = Ascii.eqb a ".".
Proof. destruct a as [[] [] [] [] [] [] [] []]; reflexivity. Qed.

Lemma split_slash_lower (s : string) :
  forall cur : string,
    Py.split_from "/" 0 (Py.lower cur) (Py.lower s)
    = map Py.lower (Py.split_from "/" 0 cur s).
Proof.
  induction s as [|a s IH]; intros cur; [reflexivity|].
  cbn [Py.lower Py.split_from Py.startswith String.length Nat.sub].
  rewrite lower_char_slash. destruct (Ascii.eqb "/" a); cbn [andb].
  - cbn [map]. f_equal. apply (IH "").
  - rewrite <- IH, lower_append. reflexivity.
Qed.

Lemma lower_is_empty (x : string) :
  String.eqb (Py.lower x) "" = String.eqb x "".
Proof. destruct x; reflexivity. Qed.

Lemma lower_is_dot (x : string) :
  String.eqb (Py.lower x) "." = String.eqb x ".".
Proof.
  destruct x as [|c x]; [reflexivity|]. cbn [Py.lower String.eqb].
  rewrite lower_char_dot. destruct (Ascii.eqb c "."); [apply lower_is_empty | reflexivity].
Qed.

Lemma filter_map_lower (f : string -> bool) (l : list string) :
  (forall x, f (Py.lower x) = f x) ->
  List.filter f (map Py.lower l) = map Py.lower (List.filter f l).
Proof.
  intros Hf. induction l as [|x l IH]; [reflexivity|]. simpl.
  rewrite Hf. destruct (f x); simpl; now rewrite IH.
Qed.

Lemma last_map_lower (l : list string) :
  List.last (map Py.lower l) "" = Py.lower (List.last l "").
Proof.
  induction l as [|x l IH]; [reflexivity|].
  destruct l as [|y l]; [reflexivity|]. exact IH.
Qed.

Lemma path_name_lower (p : string) :
  Py.path_name (Py.lower p) = Py.lower (Py.path_name p).
Proof.
  unfold Py.path_name, Py.split.
  pose proof (split_slash_lower p "") as Hsplit. cbn [Py.lower] in Hsplit.
  rewrite Hsplit, filter_map_lower; [apply last_map_lower|].
  intros x. now rewrite lower_is_empty, lower_is_dot.
Qed.

Lemma rfind_dot_lower (s : string) :
  Py.rfind_char "." (Py.lower s) = Py.rfind_char "." s.
Proof.
  induction s as [|a s IH]; [reflexivity|]. simpl.
  now rewrite IH, lower_char_dot.
Qed.

Lemma length_lower (s : string) : String.length (Py.lower s) = String.length s.
Proof. induction s as [|a s IH]; [reflexivity|]. simpl. now rewrite IH. Qed.

Lemma drop_lower (n : nat) (s : string) :
  Py.drop n (Py.lower s) = Py.lower (Py.drop n s).
Proof.
  revert s; induction n as [|n IH]; intros s; [reflexivity|].
  destruct s as [|a s]; [reflexivity|]. simpl. apply IH.
Qed.

Lemma suffix_lower (p : string) : Py.suffix (Py.lower p) = Py.lower (Py.suffix p).
Proof.
  unfold Py.suffix. rewrite path_name_lower, rfind_dot_lower, length_lower.
  destruct (Py.rfind_char "." (Py.path_name p)) as [i|]; [|reflexivity].
  destruct ((0 <? i)%nat && (i <? String.length (Py.path_name p) - 1)%nat);
    [apply drop_lower | reflexivity].
Qed.

(** X29.  [allowed_file] does not depend on the letter case of the file
    name: a name and its lower-case spelling get the same verdict, and so
    do any two names that differ in letter case only. *)
Theorem allowed_file_ignores_case (filename other : string)
  (mimetype : option string) :
  allowed_file (Py.lower filename) mimetype = allowed_file filename mimetype /\
  (Py.lower other = Py.lower filename ->
   allowed_file other mimetype = allowed_file filename mimetype).
Proof.
  assert (Hlow : forall f, allowed_file (Py.lower f) mimetype = allowed_file f mimetype).
  { intros f. unfold allowed_file. now rewrite suffix_lower, lower_idem. }
  split; [apply Hlow|].
  intros Hsame. now rewrite <- (Hlow other), <- (Hlow filename), Hsame.
Qed.

(** ** The further properties on concrete requests *)

(** Registering [signup_form] on an empty users file. *)
Lemma signup_keeps_emails_unique_witness :
  NoDup (registered_emails (users_file fresh_world)) /\
  NoDup (registered_emails (users_file registered_world)).
Proof.
  split; [constructor|].
  apply (signup_keeps_emails_unique (H := example_host) (example_env true)
           signup_form fresh_world).
  constructor.
Defined.

(** [A@B.com] is registered, then [a@B.COM] is tried. *)
Lemma signup_twice_refused_witness :
  Py.lower (form_get "email" "" second_signup_form)
  = Py.lower (form_get "email" "" signup_form) /\
  (signup (H := example_host) (example_env true) second_signup_form
     registered_world).1 = Render "signup.html" [] /\
  users_file (signup (H := example_host) (example_env true) second_signup_form
                registered_world).2 = [example_account].
Proof.
  destruct (signup_twice_refused (H := example_host) (example_env true)
              (example_env true) signup_form second_signup_form fresh_world
              eq_refl eq_refl) as (Hr & Hu & _).
  split; [reflexivity|]. split; [exact Hr | exact Hu].
Defined.

(** [login_form] gets in as the registered account. *)
Lemma login_only_with_stored_account_witness :
  (login (H := example_host) login_form registered_world).1 = Redirect "dashboard" /\
  exists u : dict json,
    u ∈ users_file registered_world /\
    dict_get "email" u = Some (JStr "a@b.com").
Proof.
  destruct (login_only_with_stored_account (H := example_host) login_form
              registered_world eq_refl)
    as (u & p & i & n & Hin & He & _).
  split; [reflexivity|]. exists u. split; [exact Hin | exact He].
Defined.

(** A resume is built, the user logs out, [login_form] logs in. *)
Lemma handle_survives_relogin_witness :
  let w := (generate (H := example_host) (example_env true) example_form None
              registered_world).2 in
  let w2 := (login (H := example_host) login_form (logout w).2).2 in
  sess_last_resume_file (session w2) = Some "/srv/app/data/resumes/0a_0c.json" /\
  (template_route "template2" w2).1 = (template_route "template2" w).1.
Proof.
  intros w w2.
  destruct (handle_survives_relogin (H := example_host) login_form "template2" w
              {| su_id := "0a"; su_name := "Ann"; su_email := "a@b.com" |}
              eq_refl eq_refl) as (Hl & _ & Ht).
  split; [exact Hl | exact Ht].
Defined.

(** [notes.txt] is refused. *)
Lemma rejected_upload_writes_nothing_witness :
  photo_rejection (secure_filename (Host := example_host) (fs_filename text_upload))
    (fs_mimetype text_upload) (fs_size text_upload)
  = Some "Invalid file type. Only PNG and JPEG allowed." /\
  resume_files (generate (H := example_host) (example_env true) example_form
                  (Some text_upload) example_world).2 = ∅.
Proof.
  destruct (rejected_upload_writes_nothing (H := example_host) (example_env true)
              example_form text_upload example_world example_user _
              eq_refl eq_refl eq_refl) as (_ & Hr & _).
  split; [reflexivity | exact Hr].
Defined.

(** [example_photo] is saved. *)
Lemma photo_entry_invariant_witness :
  exists b : bool,
    dict_get "photo_exists"
      (dict_set "photo_exists" (JBool true)
         (dict_set "photo" (JStr "/static/uploads/0b.png")
            (assemble_fields (example_env true) example_form)))
    = Some (JBool b).
Proof.
  destruct (photo_entry_invariant (H := example_host) (example_env true)
              example_form (Some example_photo) example_world
              (write_upload "/srv/app/static/uploads/0b.png" example_photo
                 example_world)
              (dict_set "photo_exists" (JBool true)
                 (dict_set "photo" (JStr "/static/uploads/0b.png")
                    (assemble_fields (example_env true) example_form)))
              eq_refl) as [(b & Hb & _) _].
  exists b. exact Hb.
Defined.

(** The resume write fails for [example_form]. *)
Lemma resume_write_failure_witness :
  resume_write_ok failing_write_env = false /\
  (generate (H := example_host) failing_write_env example_form None
     example_world).1 = Redirect "dashboard" /\
  resume_files (generate (H := example_host) failing_write_env example_form None
                  example_world).2 = ∅.
Proof.
  destruct (resume_write_failure (H := example_host) failing_write_env example_form
              None example_world example_user eq_refl eq_refl) as (Hr & Hf & _).
  split; [reflexivity|]. split; [exact Hr | exact Hf].
Defined.

(** The resume built from [example_form] is downloaded. *)
Lemma download_returns_stored_witness :
  Py.has_char "/" (su_id example_user) = false /\
  Py.path_name (resume_path (H := example_host) "u1" "0c") = "u1_0c.json".
Proof.
  destruct (download_returns_stored (H := example_host) (example_env true)
              example_form None example_world example_world example_user
              (dict_set "photo_exists" (JBool false)
                 (assemble_fields (example_env true) example_form))
              eq_refl eq_refl eq_refl) as [_ Hname].
  split; [reflexivity|]. exact (Hname eq_refl eq_refl).
Defined.

(** A second resume with identifier [0d] after the one with [0c]. *)
Lemma regenerate_keeps_first_witness :
  let second_env := {| uuid_user := "0a"; uuid_photo := "0e"; uuid_resume := "0d";
                       utcnow := "2024-05-02T09:00:00";
                       photo_save_ok := true; resume_write_ok := true |} in
  uuid_resume second_env <> uuid_resume (example_env true) /\
  is_Some
    (resume_files
       (generate (H := example_host) second_env template9_form (Some example_photo)
          (generate (H := example_host) (example_env true) example_form None
             example_world).2).2
     !! "/srv/app/data/resumes/u1_0c.json").
Proof.
  intros second_env.
  assert (Hne : uuid_resume second_env <> uuid_resume (example_env true))
    by discriminate.
  destruct (regenerate_keeps_first (H := example_host) (example_env true) second_env
              example_form template9_form None (Some example_photo)
              example_world example_world example_user
              (dict_set "photo_exists" (JBool false)
                 (assemble_fields (example_env true) example_form))
              eq_refl eq_refl eq_refl Hne) as [Hkept _].
  split; [exact Hne|]. eexists. exact Hkept.
Defined.
